(** * paypal.settings.PayPalConfig: the configuration constructor

    A shallow embedding of [PayPalConfig.__init__] (paypal/settings.py) and
    the properties of its directive validation, endpoint resolution,
    credential enforcement, CA-certificate check and timeout override.

    Modelling choices.
    - [kwargs] is a Python dict with string keys: [gmap string pyval].
    - An instance is its [__dict__], a [gmap string pyval]; reading an
      attribute falls back on the class attributes of [PayPalConfig].
    - Directive values are [None], booleans, integers, floats (IEEE 754
      values as sign, mantissa and exponent) and strings.
    - Strings are sequences of 8-bit characters and [str.upper] maps the
      ASCII letters a-z to A-Z, leaving every other character unchanged.
    - [os.path.exists] is an oracle [path_exists : string -> bool]; every
      call is recorded in the list of paths that were checked.
    - An exception leaves the constructor at once; the half-initialised
      object is dropped and only the exception (and the file-system checks
      made so far) can be observed.
    - The final [logger.debug] call is not modelled. *)

From Stdlib Require Import Ascii String ZArith SpecFloat.
From stdpp Require Import gmap strings list fin_maps.

Open Scope string_scope.

(** ** Python values that a directive can carry *)

Inductive pyval : Type :=
  | PyNone
  | PyBool (b : bool)
  | PyInt (z : Z)
  | PyFloat (f : spec_float)
  | PyStr (s : string).

(** [bool(v)]: Python truthiness. *)
Definition truthy (v : pyval) : bool :=
  match v with
  | PyNone => false
  | PyBool b => b
  | PyInt z => negb (Z.eqb z 0)
  | PyFloat f => match f with S754_zero _ => false | _ => true end
  | PyStr s => negb (String.eqb s "")
  end.

(** [type(v).__name__], used in the message of an attribute error. *)
Definition type_name (v : pyval) : string :=
  match v with
  | PyNone => "NoneType"
  | PyBool _ => "bool"
  | PyInt _ => "int"
  | PyFloat _ => "float"
  | PyStr _ => "str"
  end.

(** [isinstance(v, basestring)] *)
Definition is_basestring (v : pyval) : bool :=
  match v with PyStr _ => true | _ => false end.

(** ** [str.upper] *)

Definition upper_ascii (c : ascii) : ascii :=
  let n := nat_of_ascii c in
  if (97 <=? n)%nat && (n <=? 122)%nat then ascii_of_nat (n - 32) else c.

Fixpoint upper (s : string) : string :=
  match s with
  | EmptyString => EmptyString
  | String c s' => String (upper_ascii c) (upper s')
  end.

(** ** Exceptions and the constructor monad *)

Inductive exn : Type :=
  | PayPalConfigError (msg : string)
  | KeyError (key : pyval)
  | AttributeError (msg : string).

(** The state threaded through [__init__]: the instance dictionary of
    [self] and the paths handed to [os.path.exists] so far. *)
Record state : Type := mkState {
  self_dict : gmap string pyval;
  fs_checks : list string
}.

(** A computation either returns a value or raises; the state is kept in
    both cases, so the file-system checks made before a raise stay visible. *)
Definition M (A : Type) : Type := state -> (exn + A) * state.

Definition ret {A} (a : A) : M A := fun st => (inr a, st).

Definition bind {A B} (c : M A) (k : A -> M B) : M B :=
  fun st =>
    match c st with
    | (inl e, st') => (inl e, st')
    | (inr a, st') => k a st'
    end.

Definition raise {A} (e : exn) : M A := fun st => (inl e, st).

Notation "x <- c ;; k" := (bind c (fun x => k))
  (at level 100, c at next level, right associativity).
Notation "c ;; k" := (bind c (fun _ => k))
  (at level 100, right associativity).

(** ** Class attributes of [PayPalConfig] *)

(** The binary64 number 15.0, that is 8444249301319680 * 2^-49. *)
Definition float_15 : spec_float := S754_finite false 8444249301319680 (-49).

Definition _valid_ : gmap string (list string) :=
  {[ "API_ENVIRONMENT" := ["SANDBOX"; "PRODUCTION"];
     "API_AUTHENTICATION_MODE" :=
       ["3TOKEN"; "CERTIFICATE"; "ACCESS_TOKEN"; "3TOKEN_SUBJECT"] ]}.

Definition _API_ENDPOINTS : gmap string (gmap string string) :=
  {[ "3TOKEN" :=
       {[ "SANDBOX" := "https://api-3t.sandbox.paypal.com/nvp";
          "PRODUCTION" := "https://api-3t.paypal.com/nvp" ]};
     "ACCESS_TOKEN" :=
       {[ "SANDBOX" := "https://api-3t.sandbox.paypal.com/nvp";
          "PRODUCTION" := "https://api-3t.paypal.com/nvp" ]};
     "3TOKEN_SUBJECT" :=
       {[ "SANDBOX" := "https://api-3t.sandbox.paypal.com/nvp";
          "PRODUCTION" := "https://api-3t.paypal.com/nvp" ]} ]}.

Definition _PAYPAL_URL_BASE : gmap string string :=
  {[ "SANDBOX" := "https://www.sandbox.paypal.com/webscr";
     "PRODUCTION" := "https://www.paypal.com/webscr" ]}.

(** The class-level defaults, seen through an instance until shadowed. *)
Definition class_attrs : gmap string pyval :=
  {[ "API_VERSION" := PyStr "98.0";
     "API_ENVIRONMENT" := PyStr "SANDBOX";
     "API_AUTHENTICATION_MODE" := PyStr "3TOKEN";
     "API_USERNAME" := PyNone;
     "API_PASSWORD" := PyNone;
     "API_SIGNATURE" := PyNone;
     "API_ENDPOINT" := PyNone;
     "PAYPAL_URL_BASE" := PyNone;
     "API_CA_CERTS" := PyBool true;
     "UNIPAY_SUBJECT" := PyNone;
     "ACK_SUCCESS" := PyStr "SUCCESS";
     "ACK_SUCCESS_WITH_WARNING" := PyStr "SUCCESSWITHWARNING";
     "HTTP_TIMEOUT" := PyFloat float_15 ]}.

(** ** Attribute access *)

(** [getattr(obj, name)] on an instance whose dictionary is [d]:
    [None] stands for an attribute error. *)
Definition getattr (d : gmap string pyval) (name : string) : option pyval :=
  match d !! name with
  | Some v => Some v
  | None => class_attrs !! name
  end.

(** [self.name] inside the constructor. *)
Definition get_self (name : string) : M pyval :=
  fun st =>
    match getattr (self_dict st) name with
    | Some v => (inr v, st)
    | None =>
        (inl (AttributeError
                ("'PayPalConfig' object has no attribute '" ++ name ++ "'")),
         st)
    end.

(** [setattr(self, name, v)] *)
Definition set_self (name : string) (v : pyval) : M unit :=
  fun st => (inr tt, mkState (<[name := v]> (self_dict st)) (fs_checks st)).

(** [d[key]] for a class-level table with string keys. *)
Definition subscript {V} (d : gmap string V) (key : pyval) : M V :=
  match key with
  | PyStr s =>
      match d !! s with
      | Some v => ret v
      | None => raise (KeyError key)
      end
  | _ => raise (KeyError key)
  end.

(** [v.upper()] *)
Definition call_upper (v : pyval) : M string :=
  match v with
  | PyStr s => ret (upper s)
  | _ => raise (AttributeError
                  ("'" ++ type_name v ++ "' object has no attribute 'upper'"))
  end.

(** [kwargs.get(key)] *)
Definition kwargs_get (kwargs : gmap string pyval) (key : string) : pyval :=
  default PyNone (kwargs !! key).

(** [", ".join(l)] *)
Fixpoint join (sep : string) (l : list string) : string :=
  match l with
  | [] => ""
  | [x] => x
  | x :: l' => x ++ sep ++ join sep l'
  end.

(** [key in kwargs] *)
Definition kwargs_contains (kwargs : gmap string pyval) (key : string) : bool :=
  match kwargs !! key with Some _ => true | None => false end.

(** [kwargs[key]] *)
Definition kwargs_item (kwargs : gmap string pyval) (key : string) : M pyval :=
  match kwargs !! key with
  | Some v => ret v
  | None => raise (KeyError (PyStr key))
  end.

(** [v == s] for a string literal [s] *)
Definition eq_str (v : pyval) (s : string) : bool :=
  match v with PyStr s' => String.eqb s' s | _ => false end.

(** The argument tuples of the three credential loops (lines 127, 133, 139). *)
Definition fields_3TOKEN : list string :=
  ["API_USERNAME"; "API_PASSWORD"; "API_SIGNATURE"].
Definition fields_ACCESS_TOKEN : list string :=
  ["API_USERNAME"; "API_PASSWORD"; "ACCESS_TOKEN"; "TOKEN_SECRET";
   "APPLICATION_ID"].
Definition fields_3TOKEN_SUBJECT : list string :=
  ["API_USERNAME"; "API_PASSWORD"; "API_SIGNATURE"; "SUBJECT"].

(** ** The constructor *)

Section Constructor.

(** [os.path.exists] on the file system the constructor runs against. *)
Variable path_exists : string -> bool.

Definition os_path_exists (p : string) : M bool :=
  fun st => (inr (path_exists p),
             mkState (self_dict st) (fs_checks st ++ [p])).

(** Lines 93-99. *)
Definition resolve_environment (kwargs : gmap string pyval) : M unit :=
  if truthy (kwargs_get kwargs "API_ENVIRONMENT") then
    v <- kwargs_item kwargs "API_ENVIRONMENT" ;;
    api_environment <- call_upper v ;;
    valid <- subscript _valid_ (PyStr "API_ENVIRONMENT") ;;
    if negb (bool_decide (api_environment ∈ valid)) then
      raise (PayPalConfigError "Invalid API_ENVIRONMENT")
    else
      set_self "API_ENVIRONMENT" (PyStr api_environment)
  else ret tt.

(** Lines 101-110. *)
Definition resolve_authentication_mode (kwargs : gmap string pyval) : M unit :=
  if truthy (kwargs_get kwargs "API_AUTHENTICATION_MODE") then
    v <- kwargs_item kwargs "API_AUTHENTICATION_MODE" ;;
    auth_mode <- call_upper v ;;
    valid <- subscript _valid_ (PyStr "API_AUTHENTICATION_MODE") ;;
    if negb (bool_decide (auth_mode ∈ valid)) then
      choices <- subscript _valid_ (PyStr "API_AUTHENTICATION_MODE") ;;
      raise (PayPalConfigError
               ("Not a supported auth mode. Use one of: "
                  ++ join ", " choices))
    else
      set_self "API_AUTHENTICATION_MODE" (PyStr auth_mode)
  else ret tt.

(** Lines 113-114. *)
Definition resolve_endpoints : M unit :=
  mode <- get_self "API_AUTHENTICATION_MODE" ;;
  by_environment <- subscript _API_ENDPOINTS mode ;;
  env <- get_self "API_ENVIRONMENT" ;;
  endpoint <- subscript by_environment env ;;
  set_self "API_ENDPOINT" (PyStr endpoint) ;;
  env' <- get_self "API_ENVIRONMENT" ;;
  url_base <- subscript _PAYPAL_URL_BASE env' ;;
  set_self "PAYPAL_URL_BASE" (PyStr url_base).

(** Lines 118-123. *)
Definition resolve_ca_certs (kwargs : gmap string pyval) : M unit :=
  if truthy (kwargs_get kwargs "API_CA_CERTS") then
    v <- kwargs_item kwargs "API_CA_CERTS" ;;
    set_self "API_CA_CERTS" v ;;
    ca <- get_self "API_CA_CERTS" ;;
    match ca with
    | PyStr p =>
        found <- os_path_exists p ;;
        if negb found then raise (PayPalConfigError "Invalid API_CA_CERTS")
        else ret tt
    | _ => ret tt
    end
  else ret tt.

(** The loop shared by lines 127-130, 133-136 and 139-142. *)
Fixpoint require_fields (kwargs : gmap string pyval) (args : list string)
  : M unit :=
  match args with
  | [] => ret tt
  | arg :: rest =>
      if negb (kwargs_contains kwargs arg) then
        raise (PayPalConfigError ("Missing in PayPalConfig: " ++ arg ++ " "))
      else
        v <- kwargs_item kwargs arg ;;
        set_self arg v ;;
        require_fields kwargs rest
  end.

(** One of the three [if self.API_AUTHENTICATION_MODE == ...] blocks. *)
Definition fields_for_mode (kwargs : gmap string pyval)
    (mode_name : string) (args : list string) : M unit :=
  mode <- get_self "API_AUTHENTICATION_MODE" ;;
  if eq_str mode mode_name then require_fields kwargs args else ret tt.

(** The loop of lines 144-146. *)
Fixpoint copy_if_present (kwargs : gmap string pyval) (args : list string)
  : M unit :=
  match args with
  | [] => ret tt
  | arg :: rest =>
      (if kwargs_contains kwargs arg then
         v <- kwargs_item kwargs arg ;;
         set_self arg v
       else ret tt) ;;
      copy_if_present kwargs rest
  end.

Definition __init__ (kwargs : gmap string pyval) : M unit :=
  resolve_environment kwargs ;;
  resolve_authentication_mode kwargs ;;
  resolve_endpoints ;;
  resolve_ca_certs kwargs ;;
  fields_for_mode kwargs "3TOKEN" fields_3TOKEN ;;
  fields_for_mode kwargs "ACCESS_TOKEN" fields_ACCESS_TOKEN ;;
  fields_for_mode kwargs "3TOKEN_SUBJECT" fields_3TOKEN_SUBJECT ;;
  copy_if_present kwargs ["HTTP_TIMEOUT"].

(** What a caller of the constructor observes. *)
Inductive outcome : Type :=
  | Constructed (config : gmap string pyval)
  | Raised (e : exn).

(** Calling the class with keyword arguments [kwargs]: a fresh instance
    with an empty dictionary is initialised; the caller gets the instance
    or the exception, together with the paths that were looked up on the
    file system. *)
Definition PayPalConfig (kwargs : gmap string pyval) : outcome * list string :=
  match __init__ kwargs (mkState ∅ []) with
  | (inl e, st) => (Raised e, fs_checks st)
  | (inr _, st) => (Constructed (self_dict st), fs_checks st)
  end.

End Constructor.


(** ** Vocabulary for the statements *)

(** The credential fields that the constructor demands when the resolved
    authentication mode is [mode]: the tuple of the block of lines 126-142
    whose guard compares equal to [mode]; no block exists for any other
    mode. *)
Definition required_fields (mode : string) : list string :=
  if String.eqb mode "3TOKEN" then fields_3TOKEN
  else if String.eqb mode "ACCESS_TOKEN" then fields_ACCESS_TOKEN
  else if String.eqb mode "3TOKEN_SUBJECT" then fields_3TOKEN_SUBJECT
  else [].

(** The directive [key] makes the constructor work with the value [v]:
    either the directive is missing or falsy and [v] is the class default,
    or it is a non-empty string whose upper-case form is [v]. *)
Definition directive_selects (kwargs : gmap string pyval)
    (key dflt v : string) : Prop :=
  (truthy (kwargs_get kwargs key) = false ∧ v = dflt) ∨
  (∃ s, kwargs !! key = Some (PyStr s) ∧ s ≠ "" ∧ upper s = v).

(** The [API_CA_CERTS] directive does not name a missing file: it is
    missing, falsy, not a string, or a path that exists. *)
Definition ca_certs_acceptable (path_exists : string -> bool)
    (kwargs : gmap string pyval) : Prop :=
  ∀ p, kwargs !! "API_CA_CERTS" = Some (PyStr p) → p ≠ "" →
       path_exists p = true.

(** What the credential loops and the timeout loop leave behind when they
    run to their end: every listed key that [kwargs] holds is copied. *)
Definition copy_fields (kwargs : gmap string pyval) (args : list string)
    (d : gmap string pyval) : gmap string pyval :=
  foldl (λ d f, match kwargs !! f with Some v => <[f := v]> d | None => d end)
        d args.

(** The instance dictionary after one of the two validated directives has
    been processed with result [v]: the attribute is written only when the
    directive is truthy. *)
Definition directive_dict (kwargs : gmap string pyval) (key v : string)
    (d : gmap string pyval) : gmap string pyval :=
  if truthy (kwargs_get kwargs key) then <[key := PyStr v]> d else d.

(** The instance dictionary after a CA directive that passed. *)
Definition ca_dict (kwargs : gmap string pyval) (d : gmap string pyval)
    : gmap string pyval :=
  if truthy (kwargs_get kwargs "API_CA_CERTS")
  then <["API_CA_CERTS" := kwargs_get kwargs "API_CA_CERTS"]> d else d.

(** The paths that the CA directive sends to the file system. *)
Definition ca_trace (kwargs : gmap string pyval) : list string :=
  match kwargs_get kwargs "API_CA_CERTS" with
  | PyStr p => if String.eqb p "" then [] else [p]
  | _ => []
  end.

(** The instance dictionary of a configuration built with environment [e],
    mode [m] and the two URLs [endpoint] and [url_base]. *)
Definition resolved_dict (kwargs : gmap string pyval)
    (e m endpoint url_base : string) : gmap string pyval :=
  copy_fields kwargs ["HTTP_TIMEOUT"]
    (copy_fields kwargs (required_fields m)
       (ca_dict kwargs
          (<["PAYPAL_URL_BASE" := PyStr url_base]>
             (<["API_ENDPOINT" := PyStr endpoint]>
                (directive_dict kwargs "API_AUTHENTICATION_MODE" m
                   (directive_dict kwargs "API_ENVIRONMENT" e ∅)))))).

(** The part of [__init__] from line 126 on, and the part from line 118 on;
    [__init__] is the two directives, the endpoint lookup and then
    [init_from_ca_certs]. *)
Definition init_credentials (kwargs : gmap string pyval) : M unit :=
  fields_for_mode kwargs "3TOKEN" fields_3TOKEN ;;
  fields_for_mode kwargs "ACCESS_TOKEN" fields_ACCESS_TOKEN ;;
  fields_for_mode kwargs "3TOKEN_SUBJECT" fields_3TOKEN_SUBJECT ;;
  copy_if_present kwargs ["HTTP_TIMEOUT"].

Definition init_from_ca_certs (path_exists : string -> bool)
    (kwargs : gmap string pyval) : M unit :=
  resolve_ca_certs path_exists kwargs ;; init_credentials kwargs.

(** Every way a call of the constructor can end, in the order in which
    [__init__] reaches its exits. *)
Inductive construct_spec (path_exists : string -> bool)
    (kwargs : gmap string pyval) : outcome * list string -> Prop :=
  | ends_env_invalid s :
      kwargs !! "API_ENVIRONMENT" = Some (PyStr s) → s ≠ "" →
      upper s ∉ ["SANDBOX"; "PRODUCTION"] →
      construct_spec path_exists kwargs
        (Raised (PayPalConfigError "Invalid API_ENVIRONMENT"), [])
  | ends_env_not_str v :
      kwargs !! "API_ENVIRONMENT" = Some v → truthy v = true →
      is_basestring v = false →
      construct_spec path_exists kwargs
        (Raised (AttributeError
                   ("'" ++ type_name v ++ "' object has no attribute 'upper'")),
         [])
  | ends_mode_invalid e s :
      e ∈ ["SANDBOX"; "PRODUCTION"] →
      directive_selects kwargs "API_ENVIRONMENT" "SANDBOX" e →
      kwargs !! "API_AUTHENTICATION_MODE" = Some (PyStr s) → s ≠ "" →
      upper s ∉ ["3TOKEN"; "CERTIFICATE"; "ACCESS_TOKEN"; "3TOKEN_SUBJECT"] →
      construct_spec path_exists kwargs
        (Raised (PayPalConfigError
                   "Not a supported auth mode. Use one of: 3TOKEN, CERTIFICATE, ACCESS_TOKEN, 3TOKEN_SUBJECT"),
         [])
  | ends_mode_not_str e v :
      e ∈ ["SANDBOX"; "PRODUCTION"] →
      directive_selects kwargs "API_ENVIRONMENT" "SANDBOX" e →
      kwargs !! "API_AUTHENTICATION_MODE" = Some v → truthy v = true →
      is_basestring v = false →
      construct_spec path_exists kwargs
        (Raised (AttributeError
                   ("'" ++ type_name v ++ "' object has no attribute 'upper'")),
         [])
  | ends_certificate e :
      e ∈ ["SANDBOX"; "PRODUCTION"] →
      directive_selects kwargs "API_ENVIRONMENT" "SANDBOX" e →
      directive_selects kwargs "API_AUTHENTICATION_MODE" "3TOKEN"
        "CERTIFICATE" →
      construct_spec path_exists kwargs
        (Raised (KeyError (PyStr "CERTIFICATE")), [])
  | ends_bad_path e m p :
      e ∈ ["SANDBOX"; "PRODUCTION"] →
      directive_selects kwargs "API_ENVIRONMENT" "SANDBOX" e →
      m ∈ ["3TOKEN"; "ACCESS_TOKEN"; "3TOKEN_SUBJECT"] →
      directive_selects kwargs "API_AUTHENTICATION_MODE" "3TOKEN" m →
      kwargs !! "API_CA_CERTS" = Some (PyStr p) → p ≠ "" →
      path_exists p = false →
      construct_spec path_exists kwargs
        (Raised (PayPalConfigError "Invalid API_CA_CERTS"), [p])
  | ends_missing e m before f after :
      e ∈ ["SANDBOX"; "PRODUCTION"] →
      directive_selects kwargs "API_ENVIRONMENT" "SANDBOX" e →
      m ∈ ["3TOKEN"; "ACCESS_TOKEN"; "3TOKEN_SUBJECT"] →
      directive_selects kwargs "API_AUTHENTICATION_MODE" "3TOKEN" m →
      ca_certs_acceptable path_exists kwargs →
      required_fields m = (before ++ f :: after)%list →
      (∀ g, g ∈ before → is_Some (kwargs !! g)) → kwargs !! f = None →
      construct_spec path_exists kwargs
        (Raised (PayPalConfigError ("Missing in PayPalConfig: " ++ f ++ " ")),
         ca_trace kwargs)
  | ends_constructed e m tbl endpoint url_base :
      e ∈ ["SANDBOX"; "PRODUCTION"] →
      directive_selects kwargs "API_ENVIRONMENT" "SANDBOX" e →
      m ∈ ["3TOKEN"; "ACCESS_TOKEN"; "3TOKEN_SUBJECT"] →
      directive_selects kwargs "API_AUTHENTICATION_MODE" "3TOKEN" m →
      ca_certs_acceptable path_exists kwargs →
      (∀ f, f ∈ required_fields m → is_Some (kwargs !! f)) →
      _API_ENDPOINTS !! m = Some tbl → tbl !! e = Some endpoint →
      _PAYPAL_URL_BASE !! e = Some url_base →
      construct_spec path_exists kwargs
        (Constructed (resolved_dict kwargs e m endpoint url_base),
         ca_trace kwargs).

(** ** Sample calls *)

(** A file system on which no path exists. *)
Definition no_files : string -> bool := λ _, false.

(** The smallest call that constructs: the three 3TOKEN credentials. *)
Definition kwargs_3token : gmap string pyval :=
  {[ "API_USERNAME" := PyStr "user";
     "API_PASSWORD" := PyStr "secret";
     "API_SIGNATURE" := PyStr "signature" ]}.

(** An ACCESS_TOKEN call against production, directives in mixed case. *)
Definition kwargs_access_token : gmap string pyval :=
  {[ "API_ENVIRONMENT" := PyStr "Production";
     "API_AUTHENTICATION_MODE" := PyStr "access_token";
     "API_USERNAME" := PyStr "user";
     "API_PASSWORD" := PyStr "secret";
     "ACCESS_TOKEN" := PyStr "token";
     "TOKEN_SECRET" := PyStr "token-secret";
     "APPLICATION_ID" := PyStr "APP-1";
     "HTTP_TIMEOUT" := PyInt 30 ]}.

(** Closes [k ∉ l] for a literal key and a literal list of keys. *)
Ltac not_in_list :=
  rewrite ?not_elem_of_cons; repeat split; try done; apply not_elem_of_nil.

(** ** Strings *)



Lemma upper_empty s : upper s = "" ↔ s = "".
Proof. destruct s; simpl; split; congruence. Qed.


Lemma truthy_str s : truthy (PyStr s) = true ↔ s ≠ "".
Proof.
  simpl. destruct (String.eqb_spec s ""); simpl; split; congruence.
Qed.

Lemma truthy_str_false s : truthy (PyStr s) = false ↔ s = "".
Proof.
  simpl. destruct (String.eqb_spec s ""); simpl; split; congruence.
Qed.

(** ** The two validated directives, case by case *)

Lemma valid_environments :
  _valid_ !! "API_ENVIRONMENT" = Some ["SANDBOX"; "PRODUCTION"].
Proof. reflexivity. Qed.

Lemma valid_modes :
  _valid_ !! "API_AUTHENTICATION_MODE"
  = Some ["3TOKEN"; "CERTIFICATE"; "ACCESS_TOKEN"; "3TOKEN_SUBJECT"].
Proof. reflexivity. Qed.

Lemma kwargs_get_lookup kwargs key v :
  kwargs !! key = Some v → kwargs_get kwargs key = v.
Proof. unfold kwargs_get. by intros ->. Qed.

Lemma resolve_environment_skip kwargs st :
  truthy (kwargs_get kwargs "API_ENVIRONMENT") = false →
  resolve_environment kwargs st = (inr tt, st).
Proof. unfold resolve_environment. by intros ->. Qed.

Lemma resolve_environment_str kwargs s st :
  kwargs !! "API_ENVIRONMENT" = Some (PyStr s) → s ≠ "" →
  resolve_environment kwargs st =
    if bool_decide (upper s ∈ ["SANDBOX"; "PRODUCTION"]) then
      (inr tt, mkState (<["API_ENVIRONMENT" := PyStr (upper s)]> (self_dict st))
                       (fs_checks st))
    else (inl (PayPalConfigError "Invalid API_ENVIRONMENT"), st).
Proof.
  intros Hk Hs. unfold resolve_environment, kwargs_item.
  rewrite (kwargs_get_lookup _ _ _ Hk), Hk.
  apply truthy_str in Hs. rewrite Hs.
  unfold bind, call_upper, subscript. rewrite valid_environments.
  unfold ret, raise, set_self. by case_bool_decide.
Qed.

Lemma resolve_environment_not_str kwargs v st :
  kwargs !! "API_ENVIRONMENT" = Some v → truthy v = true →
  is_basestring v = false →
  resolve_environment kwargs st =
    (inl (AttributeError
            ("'" ++ type_name v ++ "' object has no attribute 'upper'")), st).
Proof.
  intros Hk Ht Hb. unfold resolve_environment, kwargs_item.
  rewrite (kwargs_get_lookup _ _ _ Hk), Hk, Ht.
  by destruct v.
Qed.

Lemma resolve_authentication_mode_skip kwargs st :
  truthy (kwargs_get kwargs "API_AUTHENTICATION_MODE") = false →
  resolve_authentication_mode kwargs st = (inr tt, st).
Proof. unfold resolve_authentication_mode. by intros ->. Qed.

Lemma resolve_authentication_mode_str kwargs s st :
  kwargs !! "API_AUTHENTICATION_MODE" = Some (PyStr s) → s ≠ "" →
  resolve_authentication_mode kwargs st =
    if bool_decide
         (upper s ∈ ["3TOKEN"; "CERTIFICATE"; "ACCESS_TOKEN"; "3TOKEN_SUBJECT"])
    then
      (inr tt,
       mkState (<["API_AUTHENTICATION_MODE" := PyStr (upper s)]> (self_dict st))
               (fs_checks st))
    else
      (inl (PayPalConfigError
              "Not a supported auth mode. Use one of: 3TOKEN, CERTIFICATE, ACCESS_TOKEN, 3TOKEN_SUBJECT"),
       st).
Proof.
  intros Hk Hs. unfold resolve_authentication_mode, kwargs_item.
  rewrite (kwargs_get_lookup _ _ _ Hk), Hk.
  apply truthy_str in Hs. rewrite Hs.
  unfold bind, call_upper, subscript. rewrite valid_modes.
  unfold ret, raise, set_self. by case_bool_decide.
Qed.

Lemma resolve_authentication_mode_not_str kwargs v st :
  kwargs !! "API_AUTHENTICATION_MODE" = Some v → truthy v = true →
  is_basestring v = false →
  resolve_authentication_mode kwargs st =
    (inl (AttributeError
            ("'" ++ type_name v ++ "' object has no attribute 'upper'")), st).
Proof.
  intros Hk Ht Hb. unfold resolve_authentication_mode, kwargs_item.
  rewrite (kwargs_get_lookup _ _ _ Hk), Hk, Ht.
  by destruct v.
Qed.

(** ** Running a sequence *)

Lemma bind_ok {A B} (c : M A) (k : A → M B) st a st' :
  c st = (inr a, st') → bind c k st = k a st'.
Proof. unfold bind. by intros ->. Qed.

Lemma bind_raise {A B} (c : M A) (k : A → M B) st e st' :
  c st = (inl e, st') → bind c k st = (inl e, st').
Proof. unfold bind. by intros ->. Qed.

(** ** The credential loops *)

Lemma copy_fields_snoc kwargs args f d :
  copy_fields kwargs (args ++ [f])%list d
  = copy_fields kwargs [f] (copy_fields kwargs args d).
Proof. unfold copy_fields. by rewrite foldl_app. Qed.

Lemma copy_fields_lookup_ne kwargs args d k :
  k ∉ args → copy_fields kwargs args d !! k = d !! k.
Proof.
  revert d. induction args as [|f args IH]; intros d Hk; [done|].
  apply not_elem_of_cons in Hk as [Hne Hk]. simpl.
  rewrite IH by done. destruct (kwargs !! f); [|done].
  by rewrite lookup_insert_ne.
Qed.

Lemma copy_fields_lookup kwargs args d k :
  k ∈ args → is_Some (kwargs !! k) →
  copy_fields kwargs args d !! k = kwargs !! k.
Proof.
  revert d. induction args as [|f args IH]; intros d Hk Hs.
  { by apply elem_of_nil in Hk. }
  simpl. destruct (decide (k ∈ args)) as [Hin|Hout]; [by apply IH|].
  apply elem_of_cons in Hk as [->|?]; [|done].
  rewrite copy_fields_lookup_ne by done.
  destruct Hs as [v Hv]. rewrite Hv. by rewrite lookup_insert_eq.
Qed.

Lemma require_fields_present kwargs args d t :
  (∀ f, f ∈ args → is_Some (kwargs !! f)) →
  require_fields kwargs args (mkState d t)
  = (inr tt, mkState (copy_fields kwargs args d) t).
Proof.
  revert d. induction args as [|f args IH]; intros d Hall; [done|].
  destruct (Hall f) as [v Hv]; [by left|].
  simpl. unfold kwargs_contains, kwargs_item. rewrite Hv. simpl.
  unfold bind, ret, set_self. simpl. rewrite IH; [done|].
  intros g Hg. apply Hall. by right.
Qed.

Lemma require_fields_missing kwargs before f after d t :
  (∀ g, g ∈ before → is_Some (kwargs !! g)) → kwargs !! f = None →
  require_fields kwargs (before ++ f :: after)%list (mkState d t)
  = (inl (PayPalConfigError ("Missing in PayPalConfig: " ++ f ++ " ")),
     mkState (copy_fields kwargs before d) t).
Proof.
  revert d. induction before as [|g before IH]; intros d Hall Hf.
  { simpl. unfold kwargs_contains. by rewrite Hf. }
  destruct (Hall g) as [v Hv]; [by left|].
  simpl. unfold kwargs_contains, kwargs_item. rewrite Hv. simpl.
  unfold bind, ret, set_self. simpl. rewrite IH; [done| |done].
  intros h Hh. apply Hall. by right.
Qed.

(** Either every demanded field is there, or there is a first one that is
    not. *)
Lemma first_missing (kwargs : gmap string pyval) (args : list string) :
  (∀ f, f ∈ args → is_Some (kwargs !! f)) ∨
  (∃ before f after, args = (before ++ f :: after)%list ∧
     (∀ g, g ∈ before → is_Some (kwargs !! g)) ∧ kwargs !! f = None).
Proof.
  induction args as [|a args IH].
  { left. intros f Hf. by apply elem_of_nil in Hf. }
  destruct (kwargs !! a) as [v|] eqn:Ha.
  - destruct IH as [Hall|(before & f & after & -> & Hb & Hf)].
    + left. intros f [->|Hf]%elem_of_cons; [by eexists|by apply Hall].
    + right. exists (a :: before), f, after. split; [done|]. split; [|done].
      intros g [->|Hg]%elem_of_cons; [by eexists|by apply Hb].
  - right. exists [], a, args. split; [done|]. split; [|done].
    intros g Hg. by apply elem_of_nil in Hg.
Qed.

Lemma copy_if_present_run kwargs args d t :
  copy_if_present kwargs args (mkState d t)
  = (inr tt, mkState (copy_fields kwargs args d) t).
Proof.
  revert d. induction args as [|f args IH]; intros d; [done|].
  simpl. unfold kwargs_contains, kwargs_item, bind.
  destruct (kwargs !! f) as [v|]; simpl; by rewrite IH.
Qed.

Lemma fields_for_mode_run kwargs name args d t m :
  getattr d "API_AUTHENTICATION_MODE" = Some (PyStr m) →
  fields_for_mode kwargs name args (mkState d t)
  = if String.eqb m name then require_fields kwargs args (mkState d t)
    else (inr tt, mkState d t).
Proof.
  intros Hm. unfold fields_for_mode, bind, get_self. simpl. rewrite Hm.
  simpl. by destruct (String.eqb m name).
Qed.

(** ** Attribute lookups that a write leaves alone *)

Lemma getattr_insert_ne d k k' v :
  k ≠ k' → getattr (<[k' := v]> d) k = getattr d k.
Proof. intros Hne. unfold getattr. by rewrite lookup_insert_ne. Qed.

Lemma getattr_insert_eq d k v : getattr (<[k := v]> d) k = Some v.
Proof. unfold getattr. by rewrite lookup_insert_eq. Qed.

Lemma getattr_lookup d k v : d !! k = Some v → getattr d k = Some v.
Proof. unfold getattr. by intros ->. Qed.

Lemma getattr_copy_fields_ne kwargs args d k :
  k ∉ args → getattr (copy_fields kwargs args d) k = getattr d k.
Proof. intros Hk. unfold getattr. by rewrite copy_fields_lookup_ne. Qed.

Lemma getattr_directive_dict_ne kwargs key v d k :
  k ≠ key → getattr (directive_dict kwargs key v d) k = getattr d k.
Proof.
  intros Hne. unfold directive_dict.
  destruct (truthy _); [by apply getattr_insert_ne|done].
Qed.

Lemma getattr_ca_dict_ne kwargs d k :
  k ≠ "API_CA_CERTS" → getattr (ca_dict kwargs d) k = getattr d k.
Proof.
  intros Hne. unfold ca_dict.
  destruct (truthy _); [by apply getattr_insert_ne|done].
Qed.

Lemma getattr_directive_dict kwargs key dflt v d :
  directive_selects kwargs key dflt v →
  d !! key = None → class_attrs !! key = Some (PyStr dflt) →
  getattr (directive_dict kwargs key v d) key = Some (PyStr v).
Proof.
  intros [[Hf ->]|(s & Hk & Hs & <-)] Hd Hc; unfold directive_dict.
  - rewrite Hf. unfold getattr. by rewrite Hd.
  - rewrite (kwargs_get_lookup _ _ _ Hk).
    apply truthy_str in Hs. rewrite Hs. apply getattr_insert_eq.
Qed.

(** ** The validated directives, by what they select *)

Lemma resolve_environment_selects kwargs e d t :
  directive_selects kwargs "API_ENVIRONMENT" "SANDBOX" e →
  e ∈ ["SANDBOX"; "PRODUCTION"] →
  resolve_environment kwargs (mkState d t)
  = (inr tt, mkState (directive_dict kwargs "API_ENVIRONMENT" e d) t).
Proof.
  intros [[Hf ->]|(s & Hk & Hs & <-)] He; unfold directive_dict.
  - rewrite Hf. by apply resolve_environment_skip.
  - rewrite (resolve_environment_str _ _ _ Hk Hs).
    rewrite (kwargs_get_lookup _ _ _ Hk).
    apply truthy_str in Hs. rewrite Hs. by rewrite bool_decide_eq_true_2.
Qed.

Lemma resolve_authentication_mode_selects kwargs m d t :
  directive_selects kwargs "API_AUTHENTICATION_MODE" "3TOKEN" m →
  m ∈ ["3TOKEN"; "CERTIFICATE"; "ACCESS_TOKEN"; "3TOKEN_SUBJECT"] →
  resolve_authentication_mode kwargs (mkState d t)
  = (inr tt, mkState (directive_dict kwargs "API_AUTHENTICATION_MODE" m d) t).
Proof.
  intros [[Hf ->]|(s & Hk & Hs & <-)] He; unfold directive_dict.
  - rewrite Hf. by apply resolve_authentication_mode_skip.
  - rewrite (resolve_authentication_mode_str _ _ _ Hk Hs).
    rewrite (kwargs_get_lookup _ _ _ Hk).
    apply truthy_str in Hs. rewrite Hs. by rewrite bool_decide_eq_true_2.
Qed.

(** ** Endpoint resolution *)

Lemma resolve_endpoints_run d t m e tbl endpoint url_base :
  getattr d "API_AUTHENTICATION_MODE" = Some (PyStr m) →
  getattr d "API_ENVIRONMENT" = Some (PyStr e) →
  _API_ENDPOINTS !! m = Some tbl → tbl !! e = Some endpoint →
  _PAYPAL_URL_BASE !! e = Some url_base →
  resolve_endpoints (mkState d t)
  = (inr tt,
     mkState (<["PAYPAL_URL_BASE" := PyStr url_base]>
                (<["API_ENDPOINT" := PyStr endpoint]> d)) t).
Proof.
  intros Hm He Htbl Hend Hbase.
  unfold resolve_endpoints, bind, get_self, subscript, set_self. simpl.
  rewrite Hm. simpl. rewrite Htbl. simpl. rewrite He. simpl.
  rewrite Hend. simpl. rewrite getattr_insert_ne by done. rewrite He. simpl.
  by rewrite Hbase.
Qed.

Lemma resolve_endpoints_no_entry d t m :
  getattr d "API_AUTHENTICATION_MODE" = Some (PyStr m) →
  _API_ENDPOINTS !! m = None →
  resolve_endpoints (mkState d t) = (inl (KeyError (PyStr m)), mkState d t).
Proof.
  intros Hm Htbl.
  unfold resolve_endpoints, bind, get_self, subscript. simpl.
  rewrite Hm. simpl. by rewrite Htbl.
Qed.

(** The two tables at the six implemented pairs. *)
Lemma endpoint_tables m e :
  m ∈ ["3TOKEN"; "ACCESS_TOKEN"; "3TOKEN_SUBJECT"] →
  e ∈ ["SANDBOX"; "PRODUCTION"] →
  ∃ tbl endpoint url_base,
    _API_ENDPOINTS !! m = Some tbl ∧ tbl !! e = Some endpoint ∧
    _PAYPAL_URL_BASE !! e = Some url_base ∧
    (e = "SANDBOX" ∧ endpoint = "https://api-3t.sandbox.paypal.com/nvp" ∧
       url_base = "https://www.sandbox.paypal.com/webscr"
     ∨ e = "PRODUCTION" ∧ endpoint = "https://api-3t.paypal.com/nvp" ∧
       url_base = "https://www.paypal.com/webscr").
Proof.
  intros Hm He.
  repeat (apply elem_of_cons in Hm as [->|Hm]);
    [| | |by apply elem_of_nil in Hm];
    (repeat (apply elem_of_cons in He as [->|He]);
     [| |by apply elem_of_nil in He]);
    (eexists _, _, _; split; [reflexivity|]; split; [reflexivity|];
     split; [reflexivity|]; auto).
Qed.

(** ** The CA directive *)

Lemma resolve_ca_certs_skip path_exists kwargs st :
  truthy (kwargs_get kwargs "API_CA_CERTS") = false →
  resolve_ca_certs path_exists kwargs st = (inr tt, st).
Proof. unfold resolve_ca_certs. by intros ->. Qed.

Lemma resolve_ca_certs_not_str path_exists kwargs v d t :
  kwargs !! "API_CA_CERTS" = Some v → truthy v = true →
  is_basestring v = false →
  resolve_ca_certs path_exists kwargs (mkState d t)
  = (inr tt, mkState (<["API_CA_CERTS" := v]> d) t).
Proof.
  intros Hk Ht Hb. unfold resolve_ca_certs, kwargs_item.
  rewrite (kwargs_get_lookup _ _ _ Hk), Hk, Ht.
  unfold bind, ret, set_self, get_self. simpl.
  rewrite getattr_insert_eq. by destruct v.
Qed.

Lemma resolve_ca_certs_path path_exists kwargs p d t :
  kwargs !! "API_CA_CERTS" = Some (PyStr p) → p ≠ "" →
  resolve_ca_certs path_exists kwargs (mkState d t)
  = (if path_exists p then inr tt
     else inl (PayPalConfigError "Invalid API_CA_CERTS"),
     mkState (<["API_CA_CERTS" := PyStr p]> d) (t ++ [p])).
Proof.
  intros Hk Hp. unfold resolve_ca_certs, kwargs_item.
  rewrite (kwargs_get_lookup _ _ _ Hk), Hk.
  apply truthy_str in Hp. rewrite Hp.
  unfold bind, ret, set_self, get_self, os_path_exists. simpl.
  rewrite getattr_insert_eq. simpl. by destruct (path_exists p).
Qed.

Lemma resolve_ca_certs_acceptable path_exists kwargs d t :
  ca_certs_acceptable path_exists kwargs →
  resolve_ca_certs path_exists kwargs (mkState d t)
  = (inr tt, mkState (ca_dict kwargs d) (t ++ ca_trace kwargs)).
Proof.
  intros Hca. unfold ca_dict, ca_trace.
  destruct (kwargs !! "API_CA_CERTS") as [v|] eqn:Hk.
  - rewrite (kwargs_get_lookup _ _ _ Hk).
    destruct (truthy v) eqn:Ht.
    + destruct (is_basestring v) eqn:Hb.
      * destruct v as [| | | |p]; try discriminate.
        pose proof Ht as Hp%truthy_str.
        rewrite (resolve_ca_certs_path _ _ _ _ _ Hk Hp).
        rewrite (Hca p Hk Hp).
        simpl in Ht. apply negb_true_iff in Ht. by rewrite Ht.
      * rewrite (resolve_ca_certs_not_str _ _ _ _ _ Hk Ht Hb).
        destruct v; try discriminate; by rewrite app_nil_r.
    + rewrite resolve_ca_certs_skip
        by by rewrite (kwargs_get_lookup _ _ _ Hk).
      destruct v as [| | | |p]; try by rewrite app_nil_r.
      apply truthy_str_false in Ht as ->. by rewrite app_nil_r.
  - rewrite resolve_ca_certs_skip by (unfold kwargs_get; by rewrite Hk).
    unfold kwargs_get. rewrite Hk. simpl. by rewrite app_nil_r.
Qed.

(** ** The constructor, piece by piece *)

Lemma init_unfold path_exists kwargs :
  __init__ path_exists kwargs
  = (resolve_environment kwargs ;;
     resolve_authentication_mode kwargs ;;
     resolve_endpoints ;;
     init_from_ca_certs path_exists kwargs).
Proof. reflexivity. Qed.

Lemma directives_getattr kwargs e m :
  directive_selects kwargs "API_ENVIRONMENT" "SANDBOX" e →
  directive_selects kwargs "API_AUTHENTICATION_MODE" "3TOKEN" m →
  let d := directive_dict kwargs "API_AUTHENTICATION_MODE" m
             (directive_dict kwargs "API_ENVIRONMENT" e ∅) in
  getattr d "API_ENVIRONMENT" = Some (PyStr e) ∧
  getattr d "API_AUTHENTICATION_MODE" = Some (PyStr m).
Proof.
  intros He Hm d. subst d. split.
  - rewrite getattr_directive_dict_ne by done.
    by eapply getattr_directive_dict.
  - eapply getattr_directive_dict; [done| |done].
    unfold directive_dict. destruct (truthy _); [|done].
    by rewrite lookup_insert_ne.
Qed.

(** Both directives pass and the pair has table entries: the constructor
    goes on with the CA directive. *)
Lemma init_directives path_exists kwargs e m tbl endpoint url_base :
  directive_selects kwargs "API_ENVIRONMENT" "SANDBOX" e →
  directive_selects kwargs "API_AUTHENTICATION_MODE" "3TOKEN" m →
  e ∈ ["SANDBOX"; "PRODUCTION"] →
  _API_ENDPOINTS !! m = Some tbl → tbl !! e = Some endpoint →
  _PAYPAL_URL_BASE !! e = Some url_base →
  m ∈ ["3TOKEN"; "CERTIFICATE"; "ACCESS_TOKEN"; "3TOKEN_SUBJECT"] →
  __init__ path_exists kwargs (mkState ∅ [])
  = init_from_ca_certs path_exists kwargs
      (mkState (<["PAYPAL_URL_BASE" := PyStr url_base]>
                  (<["API_ENDPOINT" := PyStr endpoint]>
                     (directive_dict kwargs "API_AUTHENTICATION_MODE" m
                        (directive_dict kwargs "API_ENVIRONMENT" e ∅)))) []).
Proof.
  intros He Hm Hev Htbl Hend Hbase Hmv. rewrite init_unfold.
  destruct (directives_getattr _ _ _ He Hm) as [Hge Hgm].
  erewrite bind_ok by (by apply resolve_environment_selects).
  erewrite bind_ok by (by apply resolve_authentication_mode_selects).
  erewrite bind_ok by (by eapply resolve_endpoints_run).
  done.
Qed.

Lemma implemented_valid m :
  m ∈ ["3TOKEN"; "ACCESS_TOKEN"; "3TOKEN_SUBJECT"] →
  m ∈ ["3TOKEN"; "CERTIFICATE"; "ACCESS_TOKEN"; "3TOKEN_SUBJECT"].
Proof.
  rewrite !elem_of_cons. intros [->|[->|[->|Hm]]]; auto.
Qed.

Lemma bind_ext_ok {A B} (c : M A) (k1 k2 : A → M B) st :
  (∀ a st', c st = (inr a, st') → k1 a st' = k2 a st') →
  bind c k1 st = bind c k2 st.
Proof.
  intros Hk. unfold bind. destruct (c st) as [[e|a] st'] eqn:Hc; [done|].
  by apply Hk.
Qed.

Lemma require_fields_ok_inv kwargs args d t a st' :
  require_fields kwargs args (mkState d t) = (inr a, st') →
  (∀ f, f ∈ args → is_Some (kwargs !! f)) ∧
  st' = mkState (copy_fields kwargs args d) t.
Proof.
  intros Hr.
  destruct (first_missing kwargs args)
    as [Hall|(before & f & after & -> & Hb & Hf)].
  - rewrite (require_fields_present _ _ _ _ Hall) in Hr. by inversion Hr.
  - by rewrite (require_fields_missing _ _ _ _ _ _ Hb Hf) in Hr.
Qed.

Lemma fields_for_mode_skip {B} kwargs name args (k : unit → M B) d t m :
  getattr d "API_AUTHENTICATION_MODE" = Some (PyStr m) →
  String.eqb m name = false →
  bind (fields_for_mode kwargs name args) k (mkState d t) = k tt (mkState d t).
Proof.
  intros Hg Hne. apply bind_ok.
  by rewrite (fields_for_mode_run _ _ _ _ _ _ Hg), Hne.
Qed.

Lemma fields_for_mode_hit {B} kwargs name args (k : unit → M B) d t m :
  getattr d "API_AUTHENTICATION_MODE" = Some (PyStr m) →
  String.eqb m name = true →
  bind (fields_for_mode kwargs name args) k (mkState d t)
  = bind (require_fields kwargs args) k (mkState d t).
Proof.
  intros Hg Heq. unfold bind.
  by rewrite (fields_for_mode_run _ _ _ _ _ _ Hg), Heq.
Qed.

Lemma credential_fields_not_mode m :
  "API_AUTHENTICATION_MODE" ∉ required_fields m.
Proof.
  unfold required_fields, fields_3TOKEN, fields_ACCESS_TOKEN,
    fields_3TOKEN_SUBJECT.
  destruct (String.eqb m "3TOKEN");
    [|destruct (String.eqb m "ACCESS_TOKEN");
      [|destruct (String.eqb m "3TOKEN_SUBJECT")]];
    rewrite ?not_elem_of_cons; repeat split; try done; apply not_elem_of_nil.
Qed.

(** The three credential blocks act as the single loop over the fields of
    the resolved mode. *)
Lemma init_credentials_run kwargs m d t :
  m ∈ ["3TOKEN"; "ACCESS_TOKEN"; "3TOKEN_SUBJECT"] →
  getattr d "API_AUTHENTICATION_MODE" = Some (PyStr m) →
  init_credentials kwargs (mkState d t)
  = (require_fields kwargs (required_fields m) ;;
     copy_if_present kwargs ["HTTP_TIMEOUT"]) (mkState d t).
Proof.
  intros Hm Hg. unfold init_credentials.
  assert (Hkeep : ∀ a st',
    require_fields kwargs (required_fields m) (mkState d t) = (inr a, st') →
    ∃ d', st' = mkState d' t ∧
          getattr d' "API_AUTHENTICATION_MODE" = Some (PyStr m)).
  { intros a st' [_ ->]%require_fields_ok_inv. eexists. split; [done|].
    rewrite getattr_copy_fields_ne; [done|apply credential_fields_not_mode]. }
  rewrite !elem_of_cons in Hm. destruct Hm as [->|[->|[->|Hm]]].
  - rewrite (fields_for_mode_hit _ _ _ _ _ _ _ Hg) by done.
    apply bind_ext_ok. intros a st' (d' & -> & Hg')%Hkeep.
    rewrite (fields_for_mode_skip _ _ _ _ _ _ _ Hg') by done.
    by rewrite (fields_for_mode_skip _ _ _ _ _ _ _ Hg') by done.
  - rewrite (fields_for_mode_skip _ _ _ _ _ _ _ Hg) by done.
    rewrite (fields_for_mode_hit _ _ _ _ _ _ _ Hg) by done.
    apply bind_ext_ok. intros a st' (d' & -> & Hg')%Hkeep.
    by rewrite (fields_for_mode_skip _ _ _ _ _ _ _ Hg') by done.
  - rewrite (fields_for_mode_skip _ _ _ _ _ _ _ Hg) by done.
    rewrite (fields_for_mode_skip _ _ _ _ _ _ _ Hg) by done.
    by rewrite (fields_for_mode_hit _ _ _ _ _ _ _ Hg) by done.
  - by apply elem_of_nil in Hm.
Qed.

Lemma init_from_ca_certs_ok path_exists kwargs m d :
  m ∈ ["3TOKEN"; "ACCESS_TOKEN"; "3TOKEN_SUBJECT"] →
  getattr d "API_AUTHENTICATION_MODE" = Some (PyStr m) →
  ca_certs_acceptable path_exists kwargs →
  (∀ f, f ∈ required_fields m → is_Some (kwargs !! f)) →
  init_from_ca_certs path_exists kwargs (mkState d [])
  = (inr tt,
     mkState (copy_fields kwargs ["HTTP_TIMEOUT"]
                (copy_fields kwargs (required_fields m) (ca_dict kwargs d)))
             (ca_trace kwargs)).
Proof.
  intros Hm Hg Hca Hall. unfold init_from_ca_certs.
  rewrite (bind_ok _ _ _ _ _ (resolve_ca_certs_acceptable _ _ _ _ Hca)).
  rewrite (init_credentials_run _ m) by
    (by rewrite ?getattr_ca_dict_ne by done).
  rewrite (bind_ok _ _ _ _ _ (require_fields_present _ _ _ _ Hall)).
  apply copy_if_present_run.
Qed.

Lemma init_from_ca_certs_missing path_exists kwargs m d before f after :
  m ∈ ["3TOKEN"; "ACCESS_TOKEN"; "3TOKEN_SUBJECT"] →
  getattr d "API_AUTHENTICATION_MODE" = Some (PyStr m) →
  ca_certs_acceptable path_exists kwargs →
  required_fields m = (before ++ f :: after)%list →
  (∀ g, g ∈ before → is_Some (kwargs !! g)) → kwargs !! f = None →
  init_from_ca_certs path_exists kwargs (mkState d [])
  = (inl (PayPalConfigError ("Missing in PayPalConfig: " ++ f ++ " ")),
     mkState (copy_fields kwargs before (ca_dict kwargs d)) (ca_trace kwargs)).
Proof.
  intros Hm Hg Hca Hreq Hb Hf. unfold init_from_ca_certs.
  rewrite (bind_ok _ _ _ _ _ (resolve_ca_certs_acceptable _ _ _ _ Hca)).
  rewrite (init_credentials_run _ m) by
    (by rewrite ?getattr_ca_dict_ne by done).
  rewrite Hreq. apply bind_raise. by apply require_fields_missing.
Qed.

Lemma init_from_ca_certs_bad_path path_exists kwargs p d t :
  kwargs !! "API_CA_CERTS" = Some (PyStr p) → p ≠ "" →
  path_exists p = false →
  init_from_ca_certs path_exists kwargs (mkState d t)
  = (inl (PayPalConfigError "Invalid API_CA_CERTS"),
     mkState (<["API_CA_CERTS" := PyStr p]> d) (t ++ [p])).
Proof.
  intros Hk Hp Hex. unfold init_from_ca_certs. apply bind_raise.
  by rewrite (resolve_ca_certs_path _ _ _ _ _ Hk Hp), Hex.
Qed.

(** ** The outcomes of the constructor *)

Section Outcomes.

Variable path_exists : string -> bool.
Variable kwargs : gmap string pyval.

Lemma construct_env_invalid s :
  kwargs !! "API_ENVIRONMENT" = Some (PyStr s) → s ≠ "" →
  upper s ∉ ["SANDBOX"; "PRODUCTION"] →
  PayPalConfig path_exists kwargs
  = (Raised (PayPalConfigError "Invalid API_ENVIRONMENT"), []).
Proof.
  intros Hk Hs Hv. unfold PayPalConfig. rewrite init_unfold.
  erewrite bind_raise;
    [|by rewrite (resolve_environment_str _ _ _ Hk Hs),
        bool_decide_eq_false_2].
  done.
Qed.

Lemma construct_env_not_str v :
  kwargs !! "API_ENVIRONMENT" = Some v → truthy v = true →
  is_basestring v = false →
  PayPalConfig path_exists kwargs
  = (Raised (AttributeError
               ("'" ++ type_name v ++ "' object has no attribute 'upper'")),
     []).
Proof.
  intros Hk Ht Hb. unfold PayPalConfig. rewrite init_unfold.
  erewrite bind_raise; [|by apply resolve_environment_not_str]. done.
Qed.

Section EnvironmentResolved.

Variable e : string.
Hypothesis env_valid : e ∈ ["SANDBOX"; "PRODUCTION"].
Hypothesis env_selected :
  directive_selects kwargs "API_ENVIRONMENT" "SANDBOX" e.

Lemma construct_mode_invalid s :
  kwargs !! "API_AUTHENTICATION_MODE" = Some (PyStr s) → s ≠ "" →
  upper s ∉ ["3TOKEN"; "CERTIFICATE"; "ACCESS_TOKEN"; "3TOKEN_SUBJECT"] →
  PayPalConfig path_exists kwargs
  = (Raised (PayPalConfigError
               "Not a supported auth mode. Use one of: 3TOKEN, CERTIFICATE, ACCESS_TOKEN, 3TOKEN_SUBJECT"),
     []).
Proof.
  intros Hk Hs Hv. unfold PayPalConfig. rewrite init_unfold.
  erewrite bind_ok by (by apply resolve_environment_selects).
  erewrite bind_raise; [|by rewrite (resolve_authentication_mode_str _ _ _ Hk Hs),
    bool_decide_eq_false_2].
  done.
Qed.

Lemma construct_mode_not_str v :
  kwargs !! "API_AUTHENTICATION_MODE" = Some v → truthy v = true →
  is_basestring v = false →
  PayPalConfig path_exists kwargs
  = (Raised (AttributeError
               ("'" ++ type_name v ++ "' object has no attribute 'upper'")),
     []).
Proof.
  intros Hk Ht Hb. unfold PayPalConfig. rewrite init_unfold.
  erewrite bind_ok by (by apply resolve_environment_selects).
  erewrite bind_raise; [|by apply resolve_authentication_mode_not_str].
  done.
Qed.

Lemma construct_certificate :
  directive_selects kwargs "API_AUTHENTICATION_MODE" "3TOKEN" "CERTIFICATE" →
  PayPalConfig path_exists kwargs
  = (Raised (KeyError (PyStr "CERTIFICATE")), []).
Proof.
  intros Hm. unfold PayPalConfig. rewrite init_unfold.
  destruct (directives_getattr _ _ _ env_selected Hm) as [Hge Hgm].
  erewrite bind_ok by (by apply resolve_environment_selects).
  erewrite bind_ok by
    (apply resolve_authentication_mode_selects;
     [done|rewrite !elem_of_cons; auto]).
  erewrite bind_raise; [|by apply resolve_endpoints_no_entry]. done.
Qed.

Section ModeResolved.

Variable m : string.
Hypothesis mode_implemented :
  m ∈ ["3TOKEN"; "ACCESS_TOKEN"; "3TOKEN_SUBJECT"].
Hypothesis mode_selected :
  directive_selects kwargs "API_AUTHENTICATION_MODE" "3TOKEN" m.

Lemma construct_bad_path p :
  kwargs !! "API_CA_CERTS" = Some (PyStr p) → p ≠ "" →
  path_exists p = false →
  PayPalConfig path_exists kwargs
  = (Raised (PayPalConfigError "Invalid API_CA_CERTS"), [p]).
Proof.
  intros Hk Hp Hex. unfold PayPalConfig.
  destruct (endpoint_tables m e)
    as (tbl & endpoint & url_base & Ht & Hend & Hbase & _); [done..|].
  erewrite init_directives by (eauto using implemented_valid).
  by rewrite (init_from_ca_certs_bad_path _ _ _ _ _ Hk Hp Hex).
Qed.

Hypothesis ca_ok : ca_certs_acceptable path_exists kwargs.

Lemma construct_missing before f after :
  required_fields m = (before ++ f :: after)%list →
  (∀ g, g ∈ before → is_Some (kwargs !! g)) → kwargs !! f = None →
  PayPalConfig path_exists kwargs
  = (Raised (PayPalConfigError
               ("Missing in PayPalConfig: " ++ f ++ " ")),
     ca_trace kwargs).
Proof.
  intros Hreq Hb Hf. unfold PayPalConfig.
  destruct (endpoint_tables m e)
    as (tbl & endpoint & url_base & Ht & Hend & Hbase & _); [done..|].
  destruct (directives_getattr _ _ _ env_selected mode_selected)
    as [Hge Hgm].
  erewrite init_directives by (eauto using implemented_valid).
  erewrite init_from_ca_certs_missing; [done..| | | | |]; try done.
  by rewrite !getattr_insert_ne by done.
Qed.

Lemma construct_ok tbl endpoint url_base :
  _API_ENDPOINTS !! m = Some tbl → tbl !! e = Some endpoint →
  _PAYPAL_URL_BASE !! e = Some url_base →
  (∀ f, f ∈ required_fields m → is_Some (kwargs !! f)) →
  PayPalConfig path_exists kwargs
  = (Constructed (resolved_dict kwargs e m endpoint url_base),
     ca_trace kwargs).
Proof.
  intros Ht Hend Hbase Hall. unfold PayPalConfig.
  destruct (directives_getattr _ _ _ env_selected mode_selected)
    as [Hge Hgm].
  erewrite init_directives by (eauto using implemented_valid).
  erewrite init_from_ca_certs_ok; [done..| | |]; try done.
  by rewrite !getattr_insert_ne by done.
Qed.

End ModeResolved.
End EnvironmentResolved.
End Outcomes.

(** ** Every way the constructor can end *)

Lemma directive_cases (kwargs : gmap string pyval) key :
  truthy (kwargs_get kwargs key) = false ∨
  (∃ s, kwargs !! key = Some (PyStr s) ∧ s ≠ "") ∨
  (∃ v, kwargs !! key = Some v ∧ truthy v = true ∧ is_basestring v = false).
Proof.
  unfold kwargs_get. destruct (kwargs !! key) as [v|]; [|by left].
  destruct (truthy v) eqn:Ht; [|by left]. right.
  destruct v as [| |z|x|s];
    [discriminate
    |right; by exists (PyBool b)
    |right; by exists (PyInt z)
    |right; by exists (PyFloat x)
    |left; exists s; split; [done|by apply truthy_str]].
Qed.

Lemma ca_certs_cases path_exists (kwargs : gmap string pyval) :
  ca_certs_acceptable path_exists kwargs ∨
  (∃ p, kwargs !! "API_CA_CERTS" = Some (PyStr p) ∧ p ≠ "" ∧
        path_exists p = false).
Proof.
  destruct (kwargs !! "API_CA_CERTS") as [v|] eqn:Hk.
  - destruct v as [| | | |p]; try (left; intros p Hp; congruence).
    destruct (decide (p = "")) as [->|Hp].
    { left. intros p Hp. congruence. }
    destruct (path_exists p) eqn:Hex.
    + left. intros p' Hp' _. congruence.
    + right. by exists p.
  - left. intros p Hp. congruence.
Qed.

Lemma valid_mode_cases m :
  m ∈ ["3TOKEN"; "CERTIFICATE"; "ACCESS_TOKEN"; "3TOKEN_SUBJECT"] →
  m = "CERTIFICATE" ∨ m ∈ ["3TOKEN"; "ACCESS_TOKEN"; "3TOKEN_SUBJECT"].
Proof. rewrite !elem_of_cons. intros [->|[->|[->|[->|Hm]]]]; auto. Qed.

Lemma default_environment_valid : "SANDBOX" ∈ ["SANDBOX"; "PRODUCTION"].
Proof. by left. Qed.

Lemma default_mode_implemented :
  "3TOKEN" ∈ ["3TOKEN"; "ACCESS_TOKEN"; "3TOKEN_SUBJECT"].
Proof. by left. Qed.

(** The constructor always ends in one of the ways listed by
    [construct_spec]. *)
Lemma construct_total path_exists kwargs :
  construct_spec path_exists kwargs (PayPalConfig path_exists kwargs).
Proof.
  (* the environment directive *)
  assert ((∃ e, e ∈ ["SANDBOX"; "PRODUCTION"] ∧
                directive_selects kwargs "API_ENVIRONMENT" "SANDBOX" e) ∨
          construct_spec path_exists kwargs (PayPalConfig path_exists kwargs))
    as [(e & He & Hse)|?]; [| |done].
  { destruct (directive_cases kwargs "API_ENVIRONMENT")
      as [Hf|[(s & Hk & Hs)|(v & Hk & Ht & Hb)]].
    - left. exists "SANDBOX". split; [apply default_environment_valid|by left].
    - destruct (decide (upper s ∈ ["SANDBOX"; "PRODUCTION"])) as [Hv|Hv].
      + left. exists (upper s). split; [done|]. right. by exists s.
      + right. rewrite (construct_env_invalid _ _ _ Hk Hs Hv).
        by eapply ends_env_invalid.
    - right. rewrite (construct_env_not_str _ _ _ Hk Ht Hb).
      by eapply ends_env_not_str. }
  (* the mode directive *)
  assert ((∃ m, m ∈ ["3TOKEN"; "ACCESS_TOKEN"; "3TOKEN_SUBJECT"] ∧
                directive_selects kwargs "API_AUTHENTICATION_MODE" "3TOKEN" m)
          ∨ construct_spec path_exists kwargs (PayPalConfig path_exists kwargs))
    as [(m & Hm & Hsm)|?]; [| |done].
  { destruct (directive_cases kwargs "API_AUTHENTICATION_MODE")
      as [Hf|[(s & Hk & Hs)|(v & Hk & Ht & Hb)]].
    - left. exists "3TOKEN". split; [apply default_mode_implemented|by left].
    - destruct (decide (upper s ∈ ["3TOKEN"; "CERTIFICATE"; "ACCESS_TOKEN";
                                   "3TOKEN_SUBJECT"])) as [Hv|Hv].
      + apply valid_mode_cases in Hv as [Hc|Hv].
        * assert (directive_selects kwargs "API_AUTHENTICATION_MODE" "3TOKEN"
                    "CERTIFICATE") as Hsel by (right; by exists s).
          right. rewrite (construct_certificate _ _ e He Hse Hsel).
          by eapply ends_certificate.
        * left. exists (upper s). split; [done|]. right. by exists s.
      + right. rewrite (construct_mode_invalid _ _ e He Hse _ Hk Hs Hv).
        by eapply ends_mode_invalid.
    - right. rewrite (construct_mode_not_str _ _ e He Hse _ Hk Ht Hb).
      by eapply ends_mode_not_str. }
  (* the CA directive *)
  destruct (ca_certs_cases path_exists kwargs)
    as [Hca|(p & Hk & Hp & Hex)].
  2: { rewrite (construct_bad_path _ _ e He Hse m Hm Hsm _ Hk Hp Hex).
       by eapply ends_bad_path. }
  (* the credentials *)
  destruct (first_missing kwargs (required_fields m))
    as [Hall|(before & f & after & Hreq & Hb & Hf)].
  2: { rewrite (construct_missing _ _ e He Hse m Hm Hsm Hca _ _ _ Hreq Hb Hf).
       by eapply ends_missing. }
  destruct (endpoint_tables m e Hm He)
    as (tbl & endpoint & url_base & Ht & Hend & Hbase & _).
  rewrite (construct_ok _ _ e He Hse m Hm Hsm Hca _ _ _ Ht Hend Hbase Hall).
  by eapply ends_constructed.
Qed.

(** A constructed configuration comes from directives that select a valid
    environment and an implemented mode, a CA directive that passes and a
    full set of credentials; its dictionary is then [resolved_dict]. *)
Lemma construct_inv path_exists kwargs config trace :
  PayPalConfig path_exists kwargs = (Constructed config, trace) →
  ∃ e m tbl endpoint url_base,
    e ∈ ["SANDBOX"; "PRODUCTION"] ∧
    m ∈ ["3TOKEN"; "ACCESS_TOKEN"; "3TOKEN_SUBJECT"] ∧
    directive_selects kwargs "API_ENVIRONMENT" "SANDBOX" e ∧
    directive_selects kwargs "API_AUTHENTICATION_MODE" "3TOKEN" m ∧
    ca_certs_acceptable path_exists kwargs ∧
    (∀ f, f ∈ required_fields m → is_Some (kwargs !! f)) ∧
    _API_ENDPOINTS !! m = Some tbl ∧ tbl !! e = Some endpoint ∧
    _PAYPAL_URL_BASE !! e = Some url_base ∧
    config = resolved_dict kwargs e m endpoint url_base ∧
    trace = ca_trace kwargs.
Proof.
  intros Hrun. pose proof (construct_total path_exists kwargs) as Hspec.
  rewrite Hrun in Hspec. inversion Hspec; subst.
  by exists e, m, tbl, endpoint, url_base.
Qed.

(** ** Reading a constructed configuration *)

Lemma required_fields_names m f :
  f ∈ required_fields m →
  f ∈ ["API_USERNAME"; "API_PASSWORD"; "API_SIGNATURE"; "ACCESS_TOKEN";
       "TOKEN_SECRET"; "APPLICATION_ID"; "SUBJECT"].
Proof.
  unfold required_fields, fields_3TOKEN, fields_ACCESS_TOKEN,
    fields_3TOKEN_SUBJECT.
  destruct (String.eqb m "3TOKEN");
    [|destruct (String.eqb m "ACCESS_TOKEN");
      [|destruct (String.eqb m "3TOKEN_SUBJECT")]];
    rewrite !elem_of_cons, ?elem_of_nil; intuition auto.
Qed.

Lemma not_required k m :
  k ∉ ["API_USERNAME"; "API_PASSWORD"; "API_SIGNATURE"; "ACCESS_TOKEN";
       "TOKEN_SECRET"; "APPLICATION_ID"; "SUBJECT"] →
  k ∉ required_fields m.
Proof. intros Hk Hin. by apply Hk, (required_fields_names m). Qed.

Section Reading.

Variable kwargs : gmap string pyval.
Variables e m endpoint url_base : string.

Local Abbreviation config := (resolved_dict kwargs e m endpoint url_base).

(** A key that neither the credential loops nor the timeout loop nor the
    CA directive writes. *)
Lemma resolved_getattr_early k :
  k ∉ ["API_USERNAME"; "API_PASSWORD"; "API_SIGNATURE"; "ACCESS_TOKEN";
       "TOKEN_SECRET"; "APPLICATION_ID"; "SUBJECT"] →
  k ≠ "HTTP_TIMEOUT" → k ≠ "API_CA_CERTS" →
  getattr config k
  = getattr (<["PAYPAL_URL_BASE" := PyStr url_base]>
               (<["API_ENDPOINT" := PyStr endpoint]>
                  (directive_dict kwargs "API_AUTHENTICATION_MODE" m
                     (directive_dict kwargs "API_ENVIRONMENT" e ∅)))) k.
Proof.
  intros Hk Ht Hc. unfold resolved_dict.
  rewrite getattr_copy_fields_ne
    by (by rewrite not_elem_of_cons; split; [|apply not_elem_of_nil]).
  rewrite getattr_copy_fields_ne by (by apply not_required).
  by rewrite getattr_ca_dict_ne.
Qed.

Lemma resolved_environment :
  directive_selects kwargs "API_ENVIRONMENT" "SANDBOX" e →
  getattr config "API_ENVIRONMENT" = Some (PyStr e).
Proof.
  intros He. rewrite resolved_getattr_early; [|not_in_list|done..].
  rewrite !getattr_insert_ne by done.
  rewrite getattr_directive_dict_ne by done.
  by eapply getattr_directive_dict.
Qed.

Lemma resolved_mode :
  directive_selects kwargs "API_AUTHENTICATION_MODE" "3TOKEN" m →
  getattr config "API_AUTHENTICATION_MODE" = Some (PyStr m).
Proof.
  intros Hm. rewrite resolved_getattr_early; [|not_in_list|done..].
  rewrite !getattr_insert_ne by done.
  eapply getattr_directive_dict; [done| |done].
  unfold directive_dict. destruct (truthy _); [|done].
  by rewrite lookup_insert_ne.
Qed.

Lemma resolved_endpoint :
  getattr config "API_ENDPOINT" = Some (PyStr endpoint).
Proof.
  rewrite resolved_getattr_early; [|not_in_list|done..].
  rewrite getattr_insert_ne by done. apply getattr_insert_eq.
Qed.

Lemma resolved_url_base :
  getattr config "PAYPAL_URL_BASE" = Some (PyStr url_base).
Proof.
  rewrite resolved_getattr_early; [|not_in_list|done..].
  apply getattr_insert_eq.
Qed.

Lemma resolved_ca_certs :
  getattr config "API_CA_CERTS"
  = Some (if truthy (kwargs_get kwargs "API_CA_CERTS")
          then kwargs_get kwargs "API_CA_CERTS" else PyBool true).
Proof.
  unfold resolved_dict.
  rewrite getattr_copy_fields_ne by not_in_list.
  rewrite getattr_copy_fields_ne by (apply not_required; not_in_list).
  unfold ca_dict. destruct (truthy _); [apply getattr_insert_eq|].
  rewrite !getattr_insert_ne by done.
  rewrite !getattr_directive_dict_ne by done. done.
Qed.

Lemma resolved_field f :
  f ∈ required_fields m → is_Some (kwargs !! f) →
  config !! f = kwargs !! f.
Proof.
  intros Hf Hs. unfold resolved_dict.
  rewrite copy_fields_lookup_ne.
  - by apply copy_fields_lookup.
  - intros ->%list_elem_of_singleton. revert Hf.
    apply not_required. not_in_list.
Qed.


End Reading.

(** ** Directive mappings that the constructor cannot tell apart *)




Lemma bind_ext {A B} (c1 c2 : M A) (k1 k2 : A → M B) st :
  c1 st = c2 st → (∀ a st', k1 a st' = k2 a st') →
  bind c1 k1 st = bind c2 k2 st.
Proof.
  intros Hc Hk. unfold bind. rewrite Hc.
  destruct (c2 st) as [[e|a] st']; [done|apply Hk].
Qed.

Lemma resolve_environment_ext (kw1 kw2 : gmap string pyval) st :
  kw1 !! "API_ENVIRONMENT" = kw2 !! "API_ENVIRONMENT" →
  resolve_environment kw1 st = resolve_environment kw2 st.
Proof.
  intros Hk. unfold resolve_environment, kwargs_get, kwargs_item.
  by rewrite Hk.
Qed.

Lemma resolve_authentication_mode_ext (kw1 kw2 : gmap string pyval) st :
  kw1 !! "API_AUTHENTICATION_MODE" = kw2 !! "API_AUTHENTICATION_MODE" →
  resolve_authentication_mode kw1 st = resolve_authentication_mode kw2 st.
Proof.
  intros Hk. unfold resolve_authentication_mode, kwargs_get, kwargs_item.
  by rewrite Hk.
Qed.

Lemma resolve_ca_certs_ext path_exists (kw1 kw2 : gmap string pyval) st :
  kw1 !! "API_CA_CERTS" = kw2 !! "API_CA_CERTS" →
  resolve_ca_certs path_exists kw1 st = resolve_ca_certs path_exists kw2 st.
Proof.
  intros Hk. unfold resolve_ca_certs, kwargs_get, kwargs_item.
  by rewrite Hk.
Qed.

Lemma require_fields_ext (kw1 kw2 : gmap string pyval) args st :
  (∀ f, f ∈ args → kw1 !! f = kw2 !! f) →
  require_fields kw1 args st = require_fields kw2 args st.
Proof.
  revert st. induction args as [|f args IH]; intros st Hk; [done|].
  simpl. unfold kwargs_contains, kwargs_item.
  rewrite (Hk f) by (by left).
  destruct (kw2 !! f); [|done]. simpl.
  apply bind_ext; [done|]. intros ? st1.
  apply bind_ext; [done|]. intros ? st2.
  apply IH. intros g Hg. apply Hk. by right.
Qed.

Lemma copy_if_present_ext (kw1 kw2 : gmap string pyval) args st :
  (∀ f, f ∈ args → kw1 !! f = kw2 !! f) →
  copy_if_present kw1 args st = copy_if_present kw2 args st.
Proof.
  revert st. induction args as [|f args IH]; intros st Hk; [done|].
  simpl. unfold kwargs_contains, kwargs_item.
  rewrite (Hk f) by (by left).
  apply bind_ext; [done|]. intros ? st1.
  apply IH. intros g Hg. apply Hk. by right.
Qed.

Lemma fields_for_mode_ext (kw1 kw2 : gmap string pyval) name args st :
  (∀ f, f ∈ args → kw1 !! f = kw2 !! f) →
  fields_for_mode kw1 name args st = fields_for_mode kw2 name args st.
Proof.
  intros Hk. unfold fields_for_mode. apply bind_ext; [done|].
  intros mode st1. destruct (eq_str mode name); [|done].
  by apply require_fields_ext.
Qed.

(** Two directive mappings on which the two validated directives and the
    CA directive behave alike, and which agree on the credential and
    timeout keys, give the same outcome. *)
Lemma construct_ext path_exists (kw1 kw2 : gmap string pyval) :
  (∀ st, resolve_environment kw1 st = resolve_environment kw2 st) →
  (∀ st, resolve_authentication_mode kw1 st
         = resolve_authentication_mode kw2 st) →
  (∀ st, resolve_ca_certs path_exists kw1 st
         = resolve_ca_certs path_exists kw2 st) →
  (∀ f, f ∈ ["API_USERNAME"; "API_PASSWORD"; "API_SIGNATURE"; "ACCESS_TOKEN";
             "TOKEN_SECRET"; "APPLICATION_ID"; "SUBJECT"; "HTTP_TIMEOUT"] →
        kw1 !! f = kw2 !! f) →
  PayPalConfig path_exists kw1 = PayPalConfig path_exists kw2.
Proof.
  intros Henv Hmode Hca Hk. unfold PayPalConfig.
  assert (∀ st, __init__ path_exists kw1 st = __init__ path_exists kw2 st)
    as ->; [|done].
  intros st. unfold __init__.
  apply bind_ext; [apply Henv|]. intros ? st1.
  apply bind_ext; [apply Hmode|]. intros ? st2.
  apply bind_ext; [done|]. intros ? st3.
  apply bind_ext; [apply Hca|]. intros ? st4.
  apply bind_ext.
  { apply fields_for_mode_ext. intros f Hf. apply Hk.
    revert Hf. unfold fields_3TOKEN. rewrite !elem_of_cons. tauto. }
  intros ? st5. apply bind_ext.
  { apply fields_for_mode_ext. intros f Hf. apply Hk.
    revert Hf. unfold fields_ACCESS_TOKEN. rewrite !elem_of_cons. tauto. }
  intros ? st6. apply bind_ext.
  { apply fields_for_mode_ext. intros f Hf. apply Hk.
    revert Hf. unfold fields_3TOKEN_SUBJECT. rewrite !elem_of_cons. tauto. }
  intros ? st7. apply copy_if_present_ext. intros f Hf. apply Hk.
  revert Hf. rewrite !elem_of_cons. tauto.
Qed.

Lemma selects_supplied (kwargs : gmap string pyval) key dflt s v :
  kwargs !! key = Some (PyStr s) → s ≠ "" →
  directive_selects kwargs key dflt v → v = upper s.
Proof.
  intros Hk Hs [[Hf _]|(s' & Hk' & _ & <-)].
  - rewrite (kwargs_get_lookup _ _ _ Hk) in Hf.
    by apply truthy_str_false in Hf.
  - congruence.
Qed.

Lemma certificate_not_implemented :
  "CERTIFICATE" ∉ ["3TOKEN"; "ACCESS_TOKEN"; "3TOKEN_SUBJECT"].
Proof. not_in_list. Qed.

Lemma certificate_valid :
  "CERTIFICATE" ∈ ["3TOKEN"; "CERTIFICATE"; "ACCESS_TOKEN"; "3TOKEN_SUBJECT"].
Proof. right; left. Qed.

Lemma kwargs_get_insert (kwargs : gmap string pyval) key v :
  kwargs_get (<[key := v]> kwargs) key = v.
Proof. unfold kwargs_get. by rewrite lookup_insert_eq. Qed.

Lemma kwargs_get_delete (kwargs : gmap string pyval) key :
  kwargs_get (delete key kwargs) key = PyNone.
Proof. unfold kwargs_get. by rewrite lookup_delete_eq. Qed.




Lemma insert_delete_lookup_ne (kwargs : gmap string pyval) key v k :
  k ≠ key → <[key := v]> kwargs !! k = delete key kwargs !! k.
Proof. intros Hne. by rewrite lookup_insert_ne, lookup_delete_ne. Qed.

Lemma credential_or_timeout_key f :
  f ∈ ["API_USERNAME"; "API_PASSWORD"; "API_SIGNATURE"; "ACCESS_TOKEN";
       "TOKEN_SECRET"; "APPLICATION_ID"; "SUBJECT"; "HTTP_TIMEOUT"] →
  f ≠ "API_ENVIRONMENT" ∧ f ≠ "API_AUTHENTICATION_MODE" ∧
  f ≠ "API_CA_CERTS".
Proof.
  rewrite !elem_of_cons, elem_of_nil.
  intros [->|[->|[->|[->|[->|[->|[->|[->|[]]]]]]]]]; done.
Qed.

(** ** Properties of the constructor *)





(** C2, as the code has it. On every constructed configuration, each
    credential field of the resolved authentication mode was a key of the
    directive mapping and reads back as the value supplied under that key,
    whatever that value is; the constructor returns an instance only when
    all checks have passed. *)
Theorem required_fields_supplied path_exists kwargs config trace m f :
  PayPalConfig path_exists kwargs = (Constructed config, trace) →
  getattr config "API_AUTHENTICATION_MODE" = Some (PyStr m) →
  f ∈ required_fields m →
  ∃ v, kwargs !! f = Some v ∧ getattr config f = Some v.
Proof.
  intros (e & m' & tbl & endpoint & url_base & He & Hm & Hse & Hsm & Hca &
          Hall & Ht & Hend & Hbase & -> & ->)%construct_inv Hg Hf.
  rewrite (resolved_mode _ _ _ _ _ Hsm) in Hg. injection Hg as ->.
  destruct (Hall f Hf) as [v Hv]. exists v. split; [done|].
  apply getattr_lookup. rewrite resolved_field; [done..|by exists v].
Qed.

Lemma required_fields_supplied_witness :
  ∃ config,
    PayPalConfig no_files kwargs_3token = (Constructed config, []) ∧
    ∃ v, kwargs_3token !! "API_SIGNATURE" = Some v ∧
         getattr config "API_SIGNATURE" = Some v.
Proof.
  eexists. split; [vm_compute; reflexivity|].
  apply (required_fields_supplied no_files kwargs_3token _ [] "3TOKEN").
  - vm_compute. reflexivity.
  - vm_compute. reflexivity.
  - right; right; left.
Defined.

(** C2, as stated, fails: a 3TOKEN call whose [API_USERNAME] is the empty
    string constructs, and the configuration holds that empty value. *)
Lemma empty_credential_accepted :
  ∃ config,
    PayPalConfig no_files (<["API_USERNAME" := PyStr ""]> kwargs_3token)
      = (Constructed config, []) ∧
    getattr config "API_AUTHENTICATION_MODE" = Some (PyStr "3TOKEN") ∧
    "API_USERNAME" ∈ required_fields "3TOKEN" ∧
    getattr config "API_USERNAME" = Some (PyStr "").
Proof.
  eexists. split; [vm_compute; reflexivity|].
  split; [vm_compute; reflexivity|]. split; [by left|].
  vm_compute. reflexivity.
Qed.

(** C5. On a constructed configuration, an omitted [API_ENVIRONMENT] leaves
    the environment at SANDBOX (and the redirect base URL at the sandbox
    one), and an omitted [API_AUTHENTICATION_MODE] leaves the mode at
    3TOKEN. *)
Theorem defaults_when_omitted path_exists kwargs config trace :
  PayPalConfig path_exists kwargs = (Constructed config, trace) →
  (kwargs !! "API_ENVIRONMENT" = None →
     getattr config "API_ENVIRONMENT" = Some (PyStr "SANDBOX") ∧
     getattr config "PAYPAL_URL_BASE"
     = Some (PyStr "https://www.sandbox.paypal.com/webscr")) ∧
  (kwargs !! "API_AUTHENTICATION_MODE" = None →
     getattr config "API_AUTHENTICATION_MODE" = Some (PyStr "3TOKEN")).
Proof.
  intros (e & m & tbl & endpoint & url_base & He & Hm & Hse & Hsm & Hca &
          Hall & Ht & Hend & Hbase & -> & ->)%construct_inv.
  split.
  - intros Hk. rewrite (resolved_environment _ _ _ _ _ Hse), resolved_url_base.
    destruct Hse as [[_ ->]|(s & Hs & _)]; [|congruence].
    vm_compute in Hbase. by injection Hbase as <-.
  - intros Hk. rewrite (resolved_mode _ _ _ _ _ Hsm).
    destruct Hsm as [[_ ->]|(s & Hs & _)]; [done|congruence].
Qed.

Lemma defaults_when_omitted_witness :
  ∃ config,
    PayPalConfig no_files kwargs_3token = (Constructed config, []) ∧
    getattr config "API_ENVIRONMENT" = Some (PyStr "SANDBOX") ∧
    getattr config "PAYPAL_URL_BASE"
    = Some (PyStr "https://www.sandbox.paypal.com/webscr") ∧
    getattr config "API_AUTHENTICATION_MODE" = Some (PyStr "3TOKEN").
Proof.
  eexists. split; [vm_compute; reflexivity|].
  destruct (defaults_when_omitted no_files kwargs_3token _ []
              ltac:(vm_compute; reflexivity)) as [Henv Hmode].
  destruct (Henv ltac:(reflexivity)) as [He Hu].
  split; [exact He|]. split; [exact Hu|]. exact (Hmode ltac:(reflexivity)).
Defined.





(** C3. When [API_AUTHENTICATION_MODE] is a string whose upper-case form
    is CERTIFICATE, the mode check accepts it and stores CERTIFICATE; the
    endpoint table has no entry for it, so that once the environment
    directive has passed the constructor raises the key error of the
    failed lookup; in no case does such a call construct a configuration or
    raise the unsupported-mode configuration error. *)
Theorem certificate_mode_fails path_exists kwargs s :
  kwargs !! "API_AUTHENTICATION_MODE" = Some (PyStr s) →
  upper s = "CERTIFICATE" →
  (∀ d t, resolve_authentication_mode kwargs (mkState d t)
          = (inr tt,
             mkState (<["API_AUTHENTICATION_MODE" := PyStr "CERTIFICATE"]> d)
                     t)) ∧
  _API_ENDPOINTS !! "CERTIFICATE" = None ∧
  (∀ e, e ∈ ["SANDBOX"; "PRODUCTION"] →
        directive_selects kwargs "API_ENVIRONMENT" "SANDBOX" e →
        PayPalConfig path_exists kwargs
        = (Raised (KeyError (PyStr "CERTIFICATE")), [])) ∧
  (∀ config, (PayPalConfig path_exists kwargs).1 ≠ Constructed config) ∧
  (PayPalConfig path_exists kwargs).1
  ≠ Raised (PayPalConfigError
              "Not a supported auth mode. Use one of: 3TOKEN, CERTIFICATE, ACCESS_TOKEN, 3TOKEN_SUBJECT").
Proof.
  intros Hk Hup.
  assert (s ≠ "") as Hs by (intros ->; discriminate).
  assert (directive_selects kwargs "API_AUTHENTICATION_MODE" "3TOKEN"
            "CERTIFICATE") as Hsel by (right; by exists s).
  assert (∀ m, m ∈ ["3TOKEN"; "ACCESS_TOKEN"; "3TOKEN_SUBJECT"] →
               ¬ directive_selects kwargs "API_AUTHENTICATION_MODE" "3TOKEN" m)
    as Hnot.
  { intros m Hm Hsm. rewrite (selects_supplied _ _ _ _ _ Hk Hs Hsm), Hup in Hm.
    by apply certificate_not_implemented. }
  split; [|split; [reflexivity|split; [|split]]].
  - intros d t. rewrite (resolve_authentication_mode_str _ _ _ Hk Hs), Hup.
    by rewrite bool_decide_eq_true_2 by apply certificate_valid.
  - intros e He Hse. by apply (construct_certificate _ _ e).
  - intros config Hc.
    destruct (PayPalConfig path_exists kwargs) as [o t] eqn:Hrun.
    simpl in Hc. subst o.
    apply construct_inv in Hrun
      as (e & m & _ & _ & _ & _ & Hm & _ & Hsm & _).
    by apply (Hnot m).
  - intros Hc. pose proof (construct_total path_exists kwargs) as Hspec.
    destruct (PayPalConfig path_exists kwargs) as [o t].
    simpl in Hc. subst o. inversion Hspec; subst.
    match goal with
    | Hk' : kwargs !! "API_AUTHENTICATION_MODE" = Some (PyStr ?s'),
      Hv : upper ?s' ∉ _ |- _ =>
        apply Hv; assert (s' = s) as -> by congruence;
        rewrite Hup; apply certificate_valid
    end.
Qed.

Lemma certificate_mode_fails_witness :
  PayPalConfig no_files
    (<["API_AUTHENTICATION_MODE" := PyStr "certificate"]> kwargs_3token)
  = (Raised (KeyError (PyStr "CERTIFICATE")), []).
Proof.
  assert ((<["API_AUTHENTICATION_MODE" := PyStr "certificate"]> kwargs_3token)
            !! "API_AUTHENTICATION_MODE" = Some (PyStr "certificate")) as Hk
    by (vm_compute; reflexivity).
  destruct (certificate_mode_fails no_files _ "certificate" Hk eq_refl)
    as (_ & _ & Hkey & _).
  apply (Hkey "SANDBOX"); [left|]. left. split; reflexivity.
Defined.






(** C10. A falsy value (the empty string, [False], [None], a zero) under
    [API_ENVIRONMENT], [API_AUTHENTICATION_MODE] or [API_CA_CERTS] gives
    the same outcome as leaving the key out.  In particular, with
    [API_ENVIRONMENT] set to the empty string the constructor never raises
    the invalid-environment error and a returned configuration has
    environment SANDBOX; with a falsy [API_CA_CERTS] no path is looked up
    and a returned configuration keeps [API_CA_CERTS] equal to [True]. *)
Theorem falsy_directives_ignored path_exists kwargs :
  (∀ key v,
     key ∈ ["API_ENVIRONMENT"; "API_AUTHENTICATION_MODE"; "API_CA_CERTS"] →
     truthy v = false →
     PayPalConfig path_exists (<[key := v]> kwargs)
     = PayPalConfig path_exists (delete key kwargs)) ∧
  (kwargs !! "API_ENVIRONMENT" = Some (PyStr "") →
   (PayPalConfig path_exists kwargs).1
   ≠ Raised (PayPalConfigError "Invalid API_ENVIRONMENT") ∧
   ∀ config, (PayPalConfig path_exists kwargs).1 = Constructed config →
             getattr config "API_ENVIRONMENT" = Some (PyStr "SANDBOX")) ∧
  (kwargs !! "API_CA_CERTS" = Some (PyBool false) ∨
   kwargs !! "API_CA_CERTS" = Some (PyStr "") →
   (PayPalConfig path_exists kwargs).2 = [] ∧
   ∀ config, (PayPalConfig path_exists kwargs).1 = Constructed config →
             getattr config "API_CA_CERTS" = Some (PyBool true)).
Proof.
  split; [|split].
  - intros key v Hkey Hv.
    assert (∀ k, k ≠ key → <[key := v]> kwargs !! k = delete key kwargs !! k)
      as Hsame by (intros k Hk; by apply insert_delete_lookup_ne).
    rewrite !elem_of_cons, elem_of_nil in Hkey.
    destruct Hkey as [->|[->|[->|[]]]]; apply construct_ext;
      try (intros st;
           first [ by apply resolve_environment_ext, Hsame
                 | by apply resolve_authentication_mode_ext, Hsame
                 | by apply resolve_ca_certs_ext, Hsame ]);
      try (intros f Hf%credential_or_timeout_key; apply Hsame; tauto).
    + intros st. rewrite !resolve_environment_skip; [done|..].
      * by rewrite kwargs_get_delete.
      * by rewrite kwargs_get_insert.
    + intros st. rewrite !resolve_authentication_mode_skip; [done|..].
      * by rewrite kwargs_get_delete.
      * by rewrite kwargs_get_insert.
    + intros st. rewrite !resolve_ca_certs_skip; [done|..].
      * by rewrite kwargs_get_delete.
      * by rewrite kwargs_get_insert.
  - intros Hk.
    assert (∀ e, directive_selects kwargs "API_ENVIRONMENT" "SANDBOX" e →
                 e = "SANDBOX") as Hdefault.
    { intros e [[_ ->]|(s & Hs & Hne & _)]; [done|congruence]. }
    split.
    + intros Hc. pose proof (construct_total path_exists kwargs) as Hspec.
      destruct (PayPalConfig path_exists kwargs) as [o t].
      simpl in Hc. subst o. inversion Hspec; subst. congruence.
    + intros config Hc.
      destruct (PayPalConfig path_exists kwargs) as [o t] eqn:Hrun.
      simpl in Hc. subst o.
      apply construct_inv in Hrun
        as (e & m & tbl & endpoint & url_base & _ & _ & Hse & _ & _ & _ & _ &
            _ & _ & -> & _).
      rewrite (resolved_environment _ _ _ _ _ Hse).
      by rewrite (Hdefault e Hse).
  - intros Hk.
    assert (truthy (kwargs_get kwargs "API_CA_CERTS") = false) as Hfalsy.
    { unfold kwargs_get. by destruct Hk as [-> | ->]. }
    assert (ca_trace kwargs = []) as Htrace.
    { unfold ca_trace, kwargs_get. by destruct Hk as [-> | ->]. }
    split.
    + pose proof (construct_total path_exists kwargs) as Hspec.
      destruct (PayPalConfig path_exists kwargs) as [o t].
      inversion Hspec; subst; simpl; try done.
      destruct Hk; congruence.
    + intros config Hc.
      destruct (PayPalConfig path_exists kwargs) as [o t] eqn:Hrun.
      simpl in Hc. subst o.
      apply construct_inv in Hrun
        as (e & m & tbl & endpoint & url_base & _ & _ & _ & _ & _ & _ & _ &
            _ & _ & -> & _).
      by rewrite resolved_ca_certs, Hfalsy.
Qed.

Lemma falsy_directives_ignored_witness :
  PayPalConfig no_files (<["API_ENVIRONMENT" := PyStr ""]> kwargs_3token)
  = PayPalConfig no_files (delete "API_ENVIRONMENT" kwargs_3token) ∧
  (PayPalConfig no_files (<["API_CA_CERTS" := PyBool false]> kwargs_3token)).2
  = [].
Proof.
  split.
  - destruct (falsy_directives_ignored no_files kwargs_3token) as [Hsame _].
    apply Hsame; [left|reflexivity].
  - assert ((<["API_CA_CERTS" := PyBool false]> kwargs_3token)
              !! "API_CA_CERTS" = Some (PyBool false)) as Hk
      by (vm_compute; reflexivity).
    destruct (falsy_directives_ignored no_files
                (<["API_CA_CERTS" := PyBool false]> kwargs_3token))
      as (_ & _ & Hca).
    exact (proj1 (Hca (or_introl Hk))).
Defined.

(** ** Further properties of the constructor *)




(** X3. The constructor consults the file system at most once, and only
    for the non-empty string given as [API_CA_CERTS]. *)
Theorem file_system_lookups path_exists kwargs :
  (PayPalConfig path_exists kwargs).2 = [] ∨
  ∃ p, kwargs !! "API_CA_CERTS" = Some (PyStr p) ∧ p ≠ "" ∧
       (PayPalConfig path_exists kwargs).2 = [p].
Proof.
  assert (ca_trace kwargs = [] ∨
          ∃ p, kwargs !! "API_CA_CERTS" = Some (PyStr p) ∧ p ≠ "" ∧
               ca_trace kwargs = [p]) as Htrace.
  { unfold ca_trace, kwargs_get.
    destruct (kwargs !! "API_CA_CERTS") as [[| | | |p]|]; simpl; auto.
    destruct (String.eqb_spec p ""); [by left|]. right. by exists p. }
  pose proof (construct_total path_exists kwargs) as Hspec.
  destruct (PayPalConfig path_exists kwargs) as [o t].
  inversion Hspec as [ | | | | | e m p | | ]; subst; simpl; auto.
  right. by exists p.
Qed.



Lemma copy_fields_lookup_Some (kwargs : gmap string pyval) args d k v :
  copy_fields kwargs args d !! k = Some v →
  (k ∈ args ∧ kwargs !! k = Some v) ∨ d !! k = Some v.
Proof.
  revert d. induction args as [|f args IH]; intros d Hk; [by right|].
  simpl in Hk. apply IH in Hk as [[Hin Hv]|Hd].
  - left. split; [by right|done].
  - destruct (kwargs !! f) as [w|] eqn:Hf; [|by right].
    destruct (decide (k = f)) as [->|Hne].
    + rewrite lookup_insert_eq in Hd. left. split; [by left|congruence].
    + rewrite lookup_insert_ne in Hd by done. by right.
Qed.

(** X5. A constructed configuration has instance attributes only for the
    environment and the mode (when supplied), the two URLs, and those of
    [API_CA_CERTS], [HTTP_TIMEOUT] and the credential fields of its mode
    that were supplied, each of the latter holding the supplied value: no
    other directive is stored on the instance. *)
Theorem stored_attributes path_exists kwargs config trace :
  PayPalConfig path_exists kwargs = (Constructed config, trace) →
  ∃ m, getattr config "API_AUTHENTICATION_MODE" = Some (PyStr m) ∧
       ∀ k v, config !! k = Some v →
         k ∈ ["API_ENVIRONMENT"; "API_AUTHENTICATION_MODE"; "API_ENDPOINT";
              "PAYPAL_URL_BASE"] ∨
         (k ∈ "API_CA_CERTS" :: "HTTP_TIMEOUT" :: required_fields m ∧
          kwargs !! k = Some v).
Proof.
  intros (e & m & tbl & endpoint & url_base & He & Hm & Hse & Hsm & Hca &
          Hall & Ht & Hend & Hbase & -> & ->)%construct_inv.
  exists m. split; [by apply resolved_mode|].
  intros k v Hk. unfold resolved_dict in Hk.
  apply copy_fields_lookup_Some in Hk as [[Hin Hv]|Hk].
  { right. split; [|done]. apply list_elem_of_singleton in Hin as ->.
    right; left. }
  apply copy_fields_lookup_Some in Hk as [[Hin Hv]|Hk].
  { right. split; [|done]. by do 2 right. }
  assert (<["PAYPAL_URL_BASE" := PyStr url_base]>
            (<["API_ENDPOINT" := PyStr endpoint]>
               (directive_dict kwargs "API_AUTHENTICATION_MODE" m
                  (directive_dict kwargs "API_ENVIRONMENT" e ∅))) !! k
          = Some v →
          k ∈ ["API_ENVIRONMENT"; "API_AUTHENTICATION_MODE"; "API_ENDPOINT";
               "PAYPAL_URL_BASE"]) as Hearly.
  { rewrite !elem_of_cons. unfold directive_dict.
    destruct (decide (k = "PAYPAL_URL_BASE")); [tauto|].
    rewrite lookup_insert_ne by done.
    destruct (decide (k = "API_ENDPOINT")); [tauto|].
    rewrite lookup_insert_ne by done.
    destruct (decide (k = "API_AUTHENTICATION_MODE")); [tauto|].
    destruct (decide (k = "API_ENVIRONMENT")); [tauto|].
    repeat (destruct (truthy _)); rewrite ?lookup_insert_ne by done;
      by rewrite lookup_empty. }
  unfold ca_dict in Hk.
  destruct (truthy (kwargs_get kwargs "API_CA_CERTS")) eqn:Htruthy;
    [|left; by apply Hearly].
  destruct (decide (k = "API_CA_CERTS")) as [->|Hne].
  - rewrite lookup_insert_eq in Hk. right. split; [by left|].
    unfold kwargs_get in Hk, Htruthy.
    destruct (kwargs !! "API_CA_CERTS"); [done|]. simpl in Htruthy. done.
  - rewrite lookup_insert_ne in Hk by done. left. by apply Hearly.
Qed.

Lemma stored_attributes_witness :
  ∃ config,
    PayPalConfig no_files
      (<["SUBJECT" := PyStr "merchant"]> kwargs_3token)
    = (Constructed config, []) ∧
    ∃ m, getattr config "API_AUTHENTICATION_MODE" = Some (PyStr m) ∧
         ∀ k v, config !! k = Some v →
           k ∈ ["API_ENVIRONMENT"; "API_AUTHENTICATION_MODE"; "API_ENDPOINT";
                "PAYPAL_URL_BASE"] ∨
           (k ∈ "API_CA_CERTS" :: "HTTP_TIMEOUT" :: required_fields m ∧
            <["SUBJECT" := PyStr "merchant"]> kwargs_3token !! k = Some v).
Proof.
  eexists. split; [vm_compute; reflexivity|].
  apply (stored_attributes no_files
           (<["SUBJECT" := PyStr "merchant"]> kwargs_3token) _ []).
  vm_compute. reflexivity.
Defined.

(** X6. The constants of the class cannot be overridden through the
    constructor: on every constructed configuration, whatever the
    directive mapping holds, [API_VERSION] is "98.0", the two
    acknowledgement codes are "SUCCESS" and "SUCCESSWITHWARNING", and
    [UNIPAY_SUBJECT] is [None]. *)
Theorem class_constants_fixed path_exists kwargs config trace :
  PayPalConfig path_exists kwargs = (Constructed config, trace) →
  getattr config "API_VERSION" = Some (PyStr "98.0") ∧
  getattr config "ACK_SUCCESS" = Some (PyStr "SUCCESS") ∧
  getattr config "ACK_SUCCESS_WITH_WARNING"
  = Some (PyStr "SUCCESSWITHWARNING") ∧
  getattr config "UNIPAY_SUBJECT" = Some PyNone.
Proof.
  intros (e & m & tbl & endpoint & url_base & He & Hm & Hse & Hsm & Hca &
          Hall & Ht & Hend & Hbase & -> & ->)%construct_inv.
  repeat split;
    (rewrite resolved_getattr_early; [|not_in_list|done..]);
    rewrite !getattr_insert_ne by done;
    by rewrite !getattr_directive_dict_ne by done.
Qed.

Lemma class_constants_fixed_witness :
  ∃ config,
    PayPalConfig no_files (<["API_VERSION" := PyStr "1.0"]> kwargs_3token)
    = (Constructed config, []) ∧
    getattr config "API_VERSION" = Some (PyStr "98.0") ∧
    getattr config "ACK_SUCCESS" = Some (PyStr "SUCCESS") ∧
    getattr config "ACK_SUCCESS_WITH_WARNING"
    = Some (PyStr "SUCCESSWITHWARNING") ∧
    getattr config "UNIPAY_SUBJECT" = Some PyNone.
Proof.
  eexists. split; [vm_compute; reflexivity|].
  apply (class_constants_fixed no_files
           (<["API_VERSION" := PyStr "1.0"]> kwargs_3token) _ []).
  vm_compute. reflexivity.
Defined.

(** X7. On every constructed configuration the two URLs follow the
    environment alone, whatever the authentication mode: a SANDBOX
    configuration has the sandbox endpoint and redirect base, a PRODUCTION
    one the production endpoint and redirect base, and there is no third
    case. *)
Theorem urls_follow_environment path_exists kwargs config trace :
  PayPalConfig path_exists kwargs = (Constructed config, trace) →
  getattr config "API_ENVIRONMENT" = Some (PyStr "SANDBOX") ∧
  getattr config "API_ENDPOINT"
  = Some (PyStr "https://api-3t.sandbox.paypal.com/nvp") ∧
  getattr config "PAYPAL_URL_BASE"
  = Some (PyStr "https://www.sandbox.paypal.com/webscr")
  ∨
  getattr config "API_ENVIRONMENT" = Some (PyStr "PRODUCTION") ∧
  getattr config "API_ENDPOINT"
  = Some (PyStr "https://api-3t.paypal.com/nvp") ∧
  getattr config "PAYPAL_URL_BASE"
  = Some (PyStr "https://www.paypal.com/webscr").
Proof.
  intros (e & m & tbl & endpoint & url_base & He & Hm & Hse & Hsm & Hca &
          Hall & Ht & Hend & Hbase & -> & ->)%construct_inv.
  rewrite (resolved_environment _ _ _ _ _ Hse), resolved_endpoint,
    resolved_url_base.
  destruct (endpoint_tables m e Hm He)
    as (tbl' & endpoint' & url_base' & Ht' & Hend' & Hbase' & Hurls).
  assert (tbl' = tbl) as -> by congruence.
  assert (endpoint' = endpoint) as -> by congruence.
  assert (url_base' = url_base) as -> by congruence.
  destruct Hurls as [(-> & -> & ->)|(-> & -> & ->)]; auto.
Qed.

Lemma urls_follow_environment_witness :
  ∃ config,
    PayPalConfig no_files kwargs_access_token = (Constructed config, []) ∧
    (getattr config "API_ENVIRONMENT" = Some (PyStr "SANDBOX") ∧
     getattr config "API_ENDPOINT"
     = Some (PyStr "https://api-3t.sandbox.paypal.com/nvp") ∧
     getattr config "PAYPAL_URL_BASE"
     = Some (PyStr "https://www.sandbox.paypal.com/webscr")
     ∨
     getattr config "API_ENVIRONMENT" = Some (PyStr "PRODUCTION") ∧
     getattr config "API_ENDPOINT"
     = Some (PyStr "https://api-3t.paypal.com/nvp") ∧
     getattr config "PAYPAL_URL_BASE"
     = Some (PyStr "https://www.paypal.com/webscr")).
Proof.
  eexists. split; [vm_compute; reflexivity|].
  apply (urls_follow_environment no_files kwargs_access_token _ []).
  vm_compute. reflexivity.
Defined.



(** X9. On every constructed configuration a truthy [API_CA_CERTS]
    directive is stored as it was given.  If it is a string, the path was
    looked up, exactly once, and exists; if it is not a string (a number,
    [True]) it is accepted without any look-up. *)
Theorem ca_certs_stored path_exists kwargs config trace v :
  PayPalConfig path_exists kwargs = (Constructed config, trace) →
  kwargs !! "API_CA_CERTS" = Some v → truthy v = true →
  getattr config "API_CA_CERTS" = Some v ∧
  (∀ p, v = PyStr p → path_exists p = true ∧ trace = [p]) ∧
  (is_basestring v = false → trace = []).
Proof.
  intros (e & m & tbl & endpoint & url_base & He & Hm & Hse & Hsm & Hca &
          Hall & Ht & Hend & Hbase & -> & ->)%construct_inv Hk Hv.
  rewrite resolved_ca_certs. unfold ca_trace.
  rewrite (kwargs_get_lookup _ _ _ Hk), Hv.
  split; [done|]. split.
  - intros p ->. pose proof Hv as Hp%truthy_str. split; [by apply Hca|].
    simpl in Hv. apply negb_true_iff in Hv. by rewrite Hv.
  - intros Hb. by destruct v.
Qed.

Lemma ca_certs_stored_witness :
  ∃ config,
    PayPalConfig (λ _, true)
      (<["API_CA_CERTS" := PyStr "/etc/ssl/ca.pem"]> kwargs_3token)
    = (Constructed config, ["/etc/ssl/ca.pem"]) ∧
    getattr config "API_CA_CERTS" = Some (PyStr "/etc/ssl/ca.pem") ∧
    (∀ p, PyStr "/etc/ssl/ca.pem" = PyStr p →
          (λ _ : string, true) p = true ∧ ["/etc/ssl/ca.pem"] = [p]) ∧
    (is_basestring (PyStr "/etc/ssl/ca.pem") = false →
     ["/etc/ssl/ca.pem"] = []).
Proof.
  eexists. split; [vm_compute; reflexivity|].
  apply (ca_certs_stored (λ _, true)
           (<["API_CA_CERTS" := PyStr "/etc/ssl/ca.pem"]> kwargs_3token)).
  - vm_compute. reflexivity.
  - vm_compute. reflexivity.
  - reflexivity.
Defined.

Lemma resolve_ca_certs_same_paths pe1 pe2 (kwargs : gmap string pyval) st :
  (∀ p, kwargs !! "API_CA_CERTS" = Some (PyStr p) → pe1 p = pe2 p) →
  resolve_ca_certs pe1 kwargs st = resolve_ca_certs pe2 kwargs st.
Proof.
  intros Hsame. destruct st as [d t].
  destruct (directive_cases kwargs "API_CA_CERTS")
    as [Hf|[(p & Hk & Hp)|(v & Hk & Ht & Hb)]].
  - by rewrite !resolve_ca_certs_skip.
  - rewrite !(resolve_ca_certs_path _ _ _ _ _ Hk Hp). by rewrite (Hsame p Hk).
  - by rewrite !(resolve_ca_certs_not_str _ _ _ _ _ Hk Ht Hb).
Qed.

(** X10. The file system influences the constructor only through the
    existence of the path given as [API_CA_CERTS]: on two file systems
    that agree on that path, the same directives give the same outcome and
    the same look-ups. *)
Theorem only_ca_path_matters pe1 pe2 kwargs :
  (∀ p, kwargs !! "API_CA_CERTS" = Some (PyStr p) → pe1 p = pe2 p) →
  PayPalConfig pe1 kwargs = PayPalConfig pe2 kwargs.
Proof.
  intros Hsame. unfold PayPalConfig.
  assert (∀ st, __init__ pe1 kwargs st = __init__ pe2 kwargs st) as ->;
    [|done].
  intros st. unfold __init__.
  apply bind_ext; [done|]. intros ? st1.
  apply bind_ext; [done|]. intros ? st2.
  apply bind_ext; [done|]. intros ? st3.
  apply bind_ext; [|done]. by apply resolve_ca_certs_same_paths.
Qed.

Lemma only_ca_path_matters_witness :
  PayPalConfig no_files kwargs_access_token
  = PayPalConfig (λ _, true) kwargs_access_token.
Proof.
  apply (only_ca_path_matters no_files (λ _, true) kwargs_access_token).
  intros p Hp. vm_compute in Hp. discriminate.
Defined.

(** X11. A truthy value that is not a string (a number, [True]) under
    [API_ENVIRONMENT] makes the constructor fail with the attribute error
    of the missing [upper] method, not with a configuration error; the
    same holds for [API_AUTHENTICATION_MODE] once the environment
    directive has passed.  No path is looked up. *)
Theorem non_string_directive_raises path_exists kwargs v :
  truthy v = true → is_basestring v = false →
  (kwargs !! "API_ENVIRONMENT" = Some v →
   PayPalConfig path_exists kwargs
   = (Raised (AttributeError
                ("'" ++ type_name v ++ "' object has no attribute 'upper'")),
      [])) ∧
  (kwargs !! "API_AUTHENTICATION_MODE" = Some v →
   ∀ e, e ∈ ["SANDBOX"; "PRODUCTION"] →
        directive_selects kwargs "API_ENVIRONMENT" "SANDBOX" e →
        PayPalConfig path_exists kwargs
        = (Raised (AttributeError
                     ("'" ++ type_name v
                        ++ "' object has no attribute 'upper'")),
           [])).
Proof.
  intros Ht Hb. split.
  - intros Hk. by apply construct_env_not_str.
  - intros Hk e He Hse. by apply (construct_mode_not_str _ _ e).
Qed.

Lemma non_string_directive_raises_witness :
  PayPalConfig no_files (<["API_ENVIRONMENT" := PyBool true]> kwargs_3token)
  = (Raised (AttributeError "'bool' object has no attribute 'upper'"), []).
Proof.
  assert ((<["API_ENVIRONMENT" := PyBool true]> kwargs_3token)
            !! "API_ENVIRONMENT" = Some (PyBool true)) as Hk
    by (vm_compute; reflexivity).
  exact (proj1 (non_string_directive_raises no_files
                  (<["API_ENVIRONMENT" := PyBool true]> kwargs_3token)
                  (PyBool true) eq_refl eq_refl) Hk).
Defined.







